(** * The dashboard pipeline of [mcp_agent/dashboard_agent.py]

    A shallow embedding of the three LangGraph nodes [node_schema],
    [node_execute_sql], [node_render_html] and of the graph assembled by
    [build_pipeline_graph], of the page of [mcp_agent/main.py] that runs
    the graph, and of [run_agent] of [mcp_agent/csv_agent.py], followed by
    the properties of the pipeline and of its two callers.

    Python values are an inductive type, exceptions are an error monad, the
    external collaborators (the [json] module, the language model, the MCP
    tools) are interfaces: the first two type classes, the tools records
    carried by the pipeline state exactly as the source carries them. *)

From Stdlib Require Import List String Ascii ZArith Bool Lia SpecFloat.
From Stdlib Require Import DecimalString.
Import ListNotations.
Local Open Scope string_scope.
Local Open Scope list_scope.

(** ** Python values *)

(** The values that travel through the pipeline: what [json.loads] yields,
    what a tool returns, what a message carries. A [dict] keeps insertion
    order (it is what [json.dumps] prints), so it is an association list;
    lookup takes the first binding of a key. *)
#[local] Unset Elimination Schemes.
Inductive pyval : Type :=
| PNone
| PBool (b : bool)
| PInt (n : Z)
| PFloat (f : spec_float)
| PStr (s : string)
| PList (items : list pyval)
| PDict (entries : list (string * pyval)).
#[local] Set Elimination Schemes.

(** ** Exceptions *)

(** Only subclasses of [Exception] are modelled. [JSONDecodeError] is the
    class [json.loads] raises on text that is not JSON; [OtherError] names
    any class a tool or the model client may raise. *)
Inductive exn_class : Type :=
| RuntimeError
| ValueError
| TypeError
| AttributeError
| KeyError
| IndexError
| JSONDecodeError
| OtherError (class_name : string).

(** An exception is its class and [str(e)]. *)
Record exn : Type := Exn { exn_cls : exn_class; exn_str : string }.

Inductive result (A : Type) : Type :=
| Return (a : A)
| Raise (e : exn).
Arguments Return {A} a.
Arguments Raise {A} e.

Definition bind {A B : Type} (r : result A) (k : A -> result B) : result B :=
  match r with
  | Return a => k a
  | Raise e => Raise e
  end.

(** [try: r  except Exception as e: h e] *)
Definition try_except {A : Type} (r : result A) (h : exn -> result A)
  : result A :=
  match r with
  | Return a => Return a
  | Raise e => h e
  end.

(** [try: r  except C as e: h e], for one exception class [C]. *)
Definition exn_class_eqb (c1 c2 : exn_class) : bool :=
  match c1, c2 with
  | RuntimeError, RuntimeError => true
  | ValueError, ValueError => true
  | TypeError, TypeError => true
  | AttributeError, AttributeError => true
  | KeyError, KeyError => true
  | IndexError, IndexError => true
  | JSONDecodeError, JSONDecodeError => true
  | OtherError n1, OtherError n2 => String.eqb n1 n2
  | _, _ => false
  end.

Definition try_except_class {A : Type} (c : exn_class) (r : result A)
  (h : exn -> result A) : result A :=
  match r with
  | Return a => Return a
  | Raise e => if exn_class_eqb (exn_cls e) c then h e else Raise e
  end.

Declare Scope py_scope.
Delimit Scope py_scope with py.
Notation "x <- c ;; k" := (bind c (fun x => k))
  (at level 61, c at next level, right associativity) : py_scope.
Notation "c ;;; k" := (bind c (fun _ => k))
  (at level 61, right associativity) : py_scope.
Local Open Scope py_scope.

Fixpoint mapM {A B : Type} (f : A -> result B) (l : list A)
  : result (list B) :=
  match l with
  | [] => Return []
  | a :: l' => b <- f a ;; bs <- mapM f l' ;; Return (b :: bs)
  end.

(** ** Python primitives used by the nodes *)

Definition is_zero_float (f : spec_float) : bool :=
  match f with
  | S754_zero _ => true
  | _ => false
  end.

(** Truth value testing: [None], [False], zero, and empty containers are
    false. *)
Definition truthy (v : pyval) : bool :=
  match v with
  | PNone => false
  | PBool b => b
  | PInt n => negb (Z.eqb n 0)
  | PFloat f => negb (is_zero_float f)
  | PStr s => negb (String.eqb s "")
  | PList items => match items with [] => false | _ => true end
  | PDict entries => match entries with [] => false | _ => true end
  end.

(** [a or b] *)
Definition py_or (a b : pyval) : pyval := if truthy a then a else b.

Definition type_name (v : pyval) : string :=
  match v with
  | PNone => "NoneType"
  | PBool _ => "bool"
  | PInt _ => "int"
  | PFloat _ => "float"
  | PStr _ => "str"
  | PList _ => "list"
  | PDict _ => "dict"
  end.

Fixpoint lookup (k : string) (d : list (string * pyval)) : option pyval :=
  match d with
  | [] => None
  | (k', v) :: d' => if String.eqb k k' then Some v else lookup k d'
  end.

Definition has_key (k : string) (d : list (string * pyval)) : bool :=
  match lookup k d with
  | Some _ => true
  | None => false
  end.

Fixpoint chars (s : string) : list pyval :=
  match s with
  | EmptyString => []
  | String c s' => PStr (String c EmptyString) :: chars s'
  end.

(** [for item in v]: the items a [for] loop (or a comprehension) visits. *)
Definition py_iter (v : pyval) : result (list pyval) :=
  match v with
  | PList items => Return items
  | PStr s => Return (chars s)
  | PDict entries => Return (map (fun kv => PStr (fst kv)) entries)
  | _ => Raise (Exn TypeError
                 ("'" ++ type_name v ++ "' object is not iterable"))
  end.

Definition is_substring (k s : string) : bool :=
  match String.index 0 k s with
  | Some _ => true
  | None => false
  end.

Definition is_pstr (k : string) (v : pyval) : bool :=
  match v with
  | PStr s => String.eqb s k
  | _ => false
  end.

(** [k in v] for a string [k]. *)
Definition py_in (k : string) (v : pyval) : result bool :=
  match v with
  | PDict entries => Return (has_key k entries)
  | PList items => Return (existsb (is_pstr k) items)
  | PStr s => Return (is_substring k s)
  | _ => Raise (Exn TypeError
                 ("argument of type '" ++ type_name v ++ "' is not iterable"))
  end.

(** [v.get(k, default)] *)
Definition py_get (v : pyval) (k : string) (default : pyval)
  : result pyval :=
  match v with
  | PDict entries =>
      Return (match lookup k entries with Some x => x | None => default end)
  | _ => Raise (Exn AttributeError
                 ("'" ++ type_name v ++ "' object has no attribute 'get'"))
  end.

(** [v[k]] for a string [k]. *)
Definition py_getitem (v : pyval) (k : string) : result pyval :=
  match v with
  | PDict entries =>
      match lookup k entries with
      | Some x => Return x
      | None => Raise (Exn KeyError ("'" ++ k ++ "'"))
      end
  | PStr _ => Raise (Exn TypeError "string indices must be integers")
  | PList _ =>
      Raise (Exn TypeError "list indices must be integers or slices, not str")
  | _ => Raise (Exn TypeError
                 ("'" ++ type_name v ++ "' object is not subscriptable"))
  end.

(** ** The [json] module *)

(** [json_loads s] is [json.loads(s)] on a [str]; [json_dumps ascii v] is
    [json.dumps(v, ensure_ascii=ascii)]. The nodes use nothing else of the
    module, and the properties below hold for every implementation. *)
Class JsonCodec : Type := {
  json_loads : string -> result pyval;
  json_dumps : bool -> pyval -> result string
}.

(** [json.loads(v)] on any object: only text is decoded. *)
Definition py_json_loads `{JsonCodec} (v : pyval) : result pyval :=
  match v with
  | PStr s => json_loads s
  | _ => Raise (Exn TypeError
                 ("the JSON object must be str, bytes or bytearray, not "
                  ++ type_name v))
  end.

(** ** The language model *)

(** [ChatGroq(model=MODEL_ID, api_key=..., max_tokens=n).ainvoke] on a
    system instruction and a user content; the result is the [content] of
    the answer. *)
Class LanguageModel : Type := {
  llm_ainvoke : option Z -> string -> string -> result string
}.

(** ** Messages, tools and the pipeline state *)

Inductive message : Type :=
| HumanMessage (content : pyval)
| AIMessage (content : pyval).

Definition content (m : message) : pyval :=
  match m with
  | HumanMessage c => c
  | AIMessage c => c
  end.

(** A tool has a [name] and answers [ainvoke] on a dictionary of
    arguments, with a value or with an exception. *)
Record BaseTool : Type := {
  name : string;
  ainvoke : pyval -> result pyval
}.

(** [class PipelineState(TypedDict)]. The field [tool] holds the tools the
    host loaded: the nodes iterate over it. *)
Record PipelineState : Type := {
  messages : list message;
  csv_file_path : string;
  tool : list BaseTool
}.

(** What a node returns: a dictionary from keys to new values. *)
Inductive update_value : Type :=
| UMessages (ms : list message)
| UStr (s : string)
| UTools (ts : list BaseTool).

Definition state_update : Type := list (string * update_value).

(** [next((t for t in tools if t.name == n), None)] *)
Definition find_tool (n : string) (tools : list BaseTool)
  : option BaseTool :=
  find (fun t => String.eqb (name t) n) tools.

(** [msgs[-1]] *)
Fixpoint last_message (msgs : list message) : result message :=
  match msgs with
  | [] => Raise (Exn IndexError "list index out of range")
  | [m] => Return m
  | _ :: msgs' => last_message msgs'
  end.

(** ** The nodes *)

Section Nodes.

Context `{Json : JsonCodec} `{LLM : LanguageModel}.

(** The two system instructions are long literals of the source; no
    property below depends on their text. *)
Variable INSTRUCTIONS_CSV_ANALYSIS_AND_SCHEMA : string.
Variable INSTRUCTIONS_RENDER_DASHBOARD_FROM_DATA : string.

(** *** [node_schema] *)

(** Lines 212-218: every item of the tool's answer that is text is
    decoded; any exception becomes a [ValueError]. *)
Definition normalize_item (item : pyval) : result pyval :=
  match item with
  | PStr s => json_loads s
  | _ => Return item
  end.

Definition normalize_schema (wrapped : pyval) : result (list pyval) :=
  try_except
    (items <- py_iter wrapped ;; mapM normalize_item items)
    (fun e => Raise (Exn ValueError
                       ("Failed to parse schema items: " ++ exn_str e))).

(** [isinstance(x, dict) and "name" in x and "dtype" in x] *)
Definition schema_item_ok (x : pyval) : bool :=
  match x with
  | PDict entries => has_key "name" entries && has_key "dtype" entries
  | _ => false
  end.

(** Lines 221-224. *)
Definition check_schema (schema_list : list pyval) : result unit :=
  match schema_list with
  | [] => Raise (Exn ValueError "Empty schema returned")
  | _ =>
      if forallb schema_item_ok (firstn 2 schema_list)
      then Return tt
      else Raise (Exn ValueError
                    "Schema items missing required keys after normalization")
  end.

(** Lines 243-251: the answer must not be empty and must decode. *)
Definition parse_analysis (analysis_content : string) : result pyval :=
  if String.eqb analysis_content ""
  then Raise (Exn RuntimeError
                "LLM returned empty content for schema analysis.")
  else
    try_except_class JSONDecodeError (json_loads analysis_content)
      (fun je => Raise (Exn ValueError
                          ("Failed to parse analysis JSON: " ++ exn_str je))).

(** Lines 254-256: [for k in (...): if k not in spec: raise ...] *)
Fixpoint require_keys (ks : list string) (spec : pyval) : result unit :=
  match ks with
  | [] => Return tt
  | k :: ks' =>
      present <- py_in k spec ;;
      if present
      then require_keys ks' spec
      else Raise (Exn ValueError
                    ("Analysis JSON missing required key: " ++ k))
  end.

(** Lines 258-261. *)
Definition minimal_spec (spec : pyval) : result pyval :=
  key_metrics <- py_get spec "key_metrics" (PList []) ;;
  dashboard_components <- py_get spec "dashboard_components" PNone ;;
  Return (PDict [("key_metrics", key_metrics);
                 ("dashboard_components", dashboard_components)]).

(** Lines 246-266: from the model's answer to the returned update. *)
Definition spec_message (analysis_content : string) : result state_update :=
  spec <- parse_analysis analysis_content ;;
  require_keys ["key_metrics"; "dashboard_components"] spec ;;;
  minimal <- minimal_spec spec ;;
  text <- json_dumps false minimal ;;
  Return [("messages", UMessages [AIMessage (PStr text)])].

(** Lines 227-239: the request sent to the model. *)
Definition analysis_request (state : PipelineState)
  (schema_list : list pyval) : result string :=
  last <- last_message (messages state) ;;
  let user_question := content last in
  json_dumps false (PDict [("schema", PList schema_list);
                           ("question", user_question)]).

(** The body of the [try] of [node_schema]. *)
Definition node_schema_try (state : PipelineState) : result state_update :=
  let tools := tool state in
  match find_tool "get_schema" tools with
  | None => Raise (Exn RuntimeError "get_schema tool not found")
  | Some get_schema =>
      wrapped <- ainvoke get_schema
                   (PDict [("file_location", PStr (csv_file_path state));
                           ("file_type", PStr "csv")]) ;;
      schema_list <- normalize_schema wrapped ;;
      check_schema schema_list ;;;
      request <- analysis_request state schema_list ;;
      analysis <- llm_ainvoke (Some 10151%Z)
                    INSTRUCTIONS_CSV_ANALYSIS_AND_SCHEMA request ;;
      spec_message analysis
  end.

(** The dictionary the [except] clause returns. *)
Definition error_payload (e : exn) : state_update :=
  [("error", UStr "node_schema_failed"); ("details", UStr (exn_str e))].

Definition node_schema (state : PipelineState) : result state_update :=
  try_except (node_schema_try state)
    (fun e => Return (error_payload e)).

(** *** [node_execute_sql] *)

Definition query_arguments (state : PipelineState) (sql : pyval) : pyval :=
  PDict [("file_locations", PList [PStr (csv_file_path state)]);
         ("query", sql);
         ("file_type", PStr "csv")].

(** The body of the loop, lines 293-304: the record of one metric. *)
Definition execute_metric (state : PipelineState) (exec_tool : BaseTool)
  (m : pyval) : result pyval :=
  sql <- py_getitem m "sql" ;;
  data <- ainvoke exec_tool (query_arguments state sql) ;;
  metric <- py_getitem m "metric" ;;
  description <- py_getitem m "description" ;;
  visualization_type <- py_getitem m "visualization_type" ;;
  Return (PDict [("metric", metric);
                 ("description", description);
                 ("visualization_type", visualization_type);
                 ("data", py_or data (PList []))]).

(** [for m in key_metrics: ... results.append(...)] *)
Fixpoint execute_metrics (state : PipelineState) (exec_tool : BaseTool)
  (key_metrics : list pyval) (results : list pyval)
  : result (list pyval) :=
  match key_metrics with
  | [] => Return results
  | m :: rest =>
      record <- execute_metric state exec_tool m ;;
      execute_metrics state exec_tool rest (results ++ [record])
  end.

(** Lines 291-307: what the node does once the payload is decoded. *)
Definition execute_plan (state : PipelineState) (exec_tool : BaseTool)
  (payload : pyval) : result state_update :=
  key_metrics <- py_get payload "key_metrics" (PList []) ;;
  plans <- py_iter key_metrics ;;
  results <- execute_metrics state exec_tool plans [] ;;
  Return [("messages", UMessages [AIMessage (PList results)])].

(** Lines 286-290. *)
Definition decode_plan (state : PipelineState) : result pyval :=
  last <- last_message (messages state) ;;
  try_except (py_json_loads (content last))
    (fun e => Raise (Exn ValueError
                       ("Failed to parse AIMessage content as JSON: "
                        ++ exn_str e))).

(** [next(t for t in tools if ...)] has no default: on an empty
    generator it raises [StopIteration], which a coroutine turns into
    this [RuntimeError]. *)
Definition node_execute_sql (state : PipelineState) : result state_update :=
  let tools := tool state in
  match find_tool "execute_polars_sql" tools with
  | None => Raise (Exn RuntimeError "coroutine raised StopIteration")
  | Some exec_tool =>
      payload <- decode_plan state ;;
      execute_plan state exec_tool payload
  end.

(** *** [node_render_html] *)

Definition node_render_html (state : PipelineState) : result state_update :=
  last <- last_message (messages state) ;;
  let last_messages := content last in
  request <- json_dumps true (PDict [("metrics", last_messages)]) ;;
  html_resp <- llm_ainvoke None
                 INSTRUCTIONS_RENDER_DASHBOARD_FROM_DATA request ;;
  Return [("messages", UMessages [AIMessage (PStr html_resp)])].

End Nodes.

(** ** The graph *)

(** [build_pipeline_graph] only declares nodes and edges; running them is
    the work of the LangGraph library. Its part is modelled as far as
    this graph uses it: nodes run one after the other along the edges, the
    dictionary a node returns is written to the channels of the state, and
    an exception raised by a node ends the run.

    What [StateGraph(PipelineState)] keeps of [add_node], [add_edge] and
    [set_entry_point]: *)
Definition node_fn : Type := PipelineState -> result state_update.

Record StateGraph : Type := {
  graph_nodes : list (string * node_fn);
  graph_edges : list (string * string);
  entry_point : string
}.

Definition END : string := "__end__".

Fixpoint assoc {A : Type} (k : string) (l : list (string * A)) : option A :=
  match l with
  | [] => None
  | (k', a) :: l' => if String.eqb k k' then Some a else assoc k l'
  end.

Section Coordinator.

Context `{Json : JsonCodec} `{LLM : LanguageModel}.
Variable INSTRUCTIONS_CSV_ANALYSIS_AND_SCHEMA : string.
Variable INSTRUCTIONS_RENDER_DASHBOARD_FROM_DATA : string.

(** How the [messages] channel combines its value with a write. The
    annotation of the field is the string ["add_messages"]; whether the
    library appends or overwrites, the properties below are the same, so
    the combination is left open. *)
Variable messages_reducer : list message -> list message -> list message.

Definition build_pipeline_graph : StateGraph := {|
  graph_nodes :=
    [("schema",
       node_schema INSTRUCTIONS_CSV_ANALYSIS_AND_SCHEMA);
     ("execute_sql", node_execute_sql);
     ("render_html",
       node_render_html INSTRUCTIONS_RENDER_DASHBOARD_FROM_DATA)];
  graph_edges :=
    [("schema", "execute_sql");
     ("execute_sql", "render_html");
     ("render_html", END)];
  entry_point := "schema"
|}.

(** One write of a node's returned dictionary. The channels are the keys
    of [PipelineState]; the library keeps of the dictionary the entries
    whose key is a channel, so a key that is no channel is dropped. *)
Definition write_channel (st : PipelineState) (kv : string * update_value)
  : PipelineState :=
  match kv with
  | (k, UMessages ms) =>
      if String.eqb k "messages"
      then {| messages := messages_reducer (messages st) ms;
              csv_file_path := csv_file_path st;
              tool := tool st |}
      else st
  | (k, UStr s) =>
      if String.eqb k "csv_file_path"
      then {| messages := messages st;
              csv_file_path := s;
              tool := tool st |}
      else st
  | (k, UTools ts) =>
      if String.eqb k "tool"
      then {| messages := messages st;
              csv_file_path := csv_file_path st;
              tool := ts |}
      else st
  end.

Definition apply_update (st : PipelineState) (u : state_update)
  : PipelineState :=
  fold_left write_channel u st.

(** One stage of a run: the node entered, the state it received, and the
    state after its update, or the exception that ended the run. *)
Record stage_run : Type := {
  stage : string;
  before : PipelineState;
  after : result PipelineState
}.

Definition recursion_limit : nat := 25.

Definition GraphRecursionError : exn :=
  Exn (OtherError "GraphRecursionError") "Recursion limit reached".

(** The run of the compiled graph from node [current]: a node that raises
    ends the run, a node that returns writes its update and hands over to
    the node its edge names. *)
Fixpoint invoke_from (g : StateGraph) (fuel : nat) (current : string)
  (st : PipelineState) : list stage_run * result PipelineState :=
  if String.eqb current END then ([], Return st)
  else
    match fuel with
    | O => ([], Raise GraphRecursionError)
    | S fuel' =>
        match assoc current (graph_nodes g) with
        | None => ([], Return st)
        | Some f =>
            match f st with
            | Raise e =>
                ([{| stage := current; before := st; after := Raise e |}],
                 Raise e)
            | Return u =>
                let st' := apply_update st u in
                let here := {| stage := current; before := st;
                               after := Return st' |} in
                match assoc current (graph_edges g) with
                | None => ([here], Return st')
                | Some next =>
                    let (rest, final) := invoke_from g fuel' next st' in
                    (here :: rest, final)
                end
            end
        end
    end.

(** [pipeline.ainvoke(init_state)] *)
Definition ainvoke_pipeline (init_state : PipelineState)
  : list stage_run * result PipelineState :=
  invoke_from build_pipeline_graph recursion_limit
    (entry_point build_pipeline_graph) init_state.

Definition entered (run : list stage_run * result PipelineState)
  : list string :=
  map stage (fst run).

End Coordinator.

(** ** The host: [main.py] *)

Definition CUSTOM_TEMP_DIR : string := "/mnt/c/workspaces/mcpserver/temp/".

Definition starts_with_sep (s : string) : bool :=
  match s with
  | String c _ => Ascii.eqb c "/"
  | EmptyString => false
  end.

Fixpoint ends_with_sep (s : string) : bool :=
  match s with
  | EmptyString => false
  | String c EmptyString => Ascii.eqb c "/"
  | String _ s' => ends_with_sep s'
  end.

(** [os.path.join(a, b)] where paths are POSIX paths, as the directory
    above is: an absolute [b] replaces [a]. *)
Definition path_join (a b : string) : string :=
  if starts_with_sep b then b
  else if String.eqb a "" || ends_with_sep a then a ++ b
  else a ++ "/" ++ b.

(** Lines 41-45: where an uploaded file of the given name is kept; [None]
    while nothing is uploaded. *)
Definition upload_path (csv_file : option string) : option string :=
  match csv_file with
  | None => None
  | Some file_name =>
      Some (path_join CUSTOM_TEMP_DIR ("uploaded_" ++ file_name))
  end.

(** What the page shows: the calls of [st.error], [st.success],
    [st.components.v1.html] and [st.write]. *)
Inductive ui_event : Type :=
| st_error (text : string)
| st_success (text : string)
| st_components_html (html : pyval)
| st_write (label : string) (keys : list string).

Definition is_AIMessage (m : message) : bool :=
  match m with
  | AIMessage _ => true
  | HumanMessage _ => false
  end.

Section Host.

Context `{Json : JsonCodec} `{LLM : LanguageModel}.
Variable INSTRUCTIONS_CSV_ANALYSIS_AND_SCHEMA : string.
Variable INSTRUCTIONS_RENDER_DASHBOARD_FROM_DATA : string.
Variable messages_reducer : list message -> list message -> list message.

(** [st.components.v1.html]: the component of the library, which may
    refuse what it is given. *)
Variable components_html : pyval -> result unit.

(** Lines 76-83: the content of the last message and, when that is
    false, the content of the last [AIMessage]. *)
Definition html_of_result (final : PipelineState) : result pyval :=
  last <- last_message (messages final) ;;
  let html := content last in
  if truthy html then Return html
  else
    let msgs := messages final in
    match find is_AIMessage (rev msgs) with
    | Some last_ai => Return (content last_ai)
    | None => Return html
    end.

(** Lines 85-93. *)
Definition show_html (html : pyval) : result (list ui_event) :=
  if truthy html
  then
    components_html html ;;;
    Return [st_components_html html; st_success "Dashboard generated!"]
  else
    Return [st_error "No HTML returned from pipeline.";
            st_write "Result keys:" ["messages"; "csv_file_path"; "tool"]].

(** Lines 56-95: a press of the button, with the path of the upload, the
    question and the tools of the session. *)
Definition generate_dashboard (csv_path : option string) (query : string)
  (tools : list BaseTool) : list ui_event :=
  match csv_path with
  | None => [st_error "Please upload a CSV first."]
  | Some path =>
      if String.eqb path ""
      then [st_error "Please upload a CSV first."]
      else
        let init_state :=
          {| messages := [HumanMessage (PStr query)];
             csv_file_path := path;
             tool := tools |} in
        let shown :=
          final <- snd (ainvoke_pipeline
                          INSTRUCTIONS_CSV_ANALYSIS_AND_SCHEMA
                          INSTRUCTIONS_RENDER_DASHBOARD_FROM_DATA
                          messages_reducer init_state) ;;
          html <- html_of_result final ;;
          show_html html in
        match shown with
        | Return events => events
        | Raise e => [st_error ("Failed: " ++ exn_str e)]
        end
  end.

End Host.

(** ** The question agent: [csv_agent.py] *)

(** The [messages] of the response of an agent. *)
Definition agent_response : Type := list message.

(** The agent [create_react_agent(model=llm, tools=tools, prompt=prompt)]
    once it is created: its [ainvoke] on one user message. *)
Class ReactAgent : Type := {
  agent_ainvoke : list BaseTool -> string -> string -> result agent_response
}.

(** [finally: fin]: an exception of [fin] replaces the outcome of the
    body. *)
Definition try_finally {A : Type} (body : result A) (fin : result unit)
  : result A :=
  match fin with
  | Return _ => body
  | Raise e => Raise e
  end.

Definition UnboundLocalError : exn :=
  Exn (OtherError "UnboundLocalError")
    "cannot access local variable 'response' where it is not associated with a value".

Section Agent.

Context `{Agent : ReactAgent}.

(** The instruction of the agent, a long literal of the source. *)
Variable INSTRUCTIONS : string.

(** [run_agent]. The local [response] is bound only once [ainvoke] has
    returned; the [finally] clause reads it whatever happened. *)
Definition run_agent (message csv_path : string) (tools : list BaseTool)
  : result pyval :=
  let tools_by_server := tools in
  let answer := agent_ainvoke tools_by_server INSTRUCTIONS message in
  let response : option agent_response :=
    match answer with
    | Return r => Some r
    | Raise _ => None
    end in
  try_finally
    (try_except
       (r <- answer ;;
        last <- last_message r ;;
        Return (content last))
       (fun e => Raise e))
    (match response with
     | Some _ => Return tt
     | None => Raise UnboundLocalError
     end).

End Agent.

(** ** Test doubles *)

(** A codec for the fragment of JSON the closed examples use: ASCII text
    and integers. A number with a fraction or an exponent, a [\u] escape
    and a float to print are outside the fragment and reported as errors,
    and the text of a decoding error is shorter than the library's. Only
    closed examples use it; no general property depends on it. *)
Module Reference.

Local Open Scope char_scope.

(** The double quote. *)
Definition dquote : ascii := ascii_of_nat 34.

Definition is_ws (c : ascii) : bool :=
  Ascii.eqb c " " || Ascii.eqb c "009" || Ascii.eqb c "010"
  || Ascii.eqb c "013".

Fixpoint skip_ws (s : string) : string :=
  match s with
  | String c s' => if is_ws c then skip_ws s' else s
  | EmptyString => s
  end.

Definition digit_of (c : ascii) : option Z :=
  let n := Z.of_nat (nat_of_ascii c) in
  if (48 <=? n)%Z && (n <=? 57)%Z then Some (n - 48)%Z else None.

Fixpoint parse_digits (s : string) (acc : Z) : Z * string :=
  match s with
  | String c s' =>
      match digit_of c with
      | Some d => parse_digits s' (10 * acc + d)%Z
      | None => (acc, s)
      end
  | EmptyString => (acc, s)
  end.

Definition starts_fraction (s : string) : bool :=
  match s with
  | String c _ => Ascii.eqb c "." || Ascii.eqb c "e" || Ascii.eqb c "E"
  | EmptyString => false
  end.

(** [0] or a digit from 1 to 9 followed by digits. *)
Definition parse_natural (s : string) : option (Z * string) :=
  match s with
  | String c s' =>
      match digit_of c with
      | Some 0%Z => if starts_fraction s' then None else Some (0%Z, s')
      | Some d =>
          let (n, rest) := parse_digits s' d in
          if starts_fraction rest then None else Some (n, rest)
      | None => None
      end
  | EmptyString => None
  end.

Definition parse_number (s : string) : option (pyval * string) :=
  match s with
  | String "-" s' =>
      match parse_natural s' with
      | Some (n, rest) => Some (PInt (- n), rest)
      | None => None
      end
  | _ =>
      match parse_natural s with
      | Some (n, rest) => Some (PInt n, rest)
      | None => None
      end
  end.

Definition unescape (c : ascii) : option ascii :=
  if Ascii.eqb c dquote then Some dquote
  else if Ascii.eqb c "\" then Some "\"
  else if Ascii.eqb c "/" then Some "/"
  else if Ascii.eqb c "b" then Some "008"
  else if Ascii.eqb c "f" then Some "012"
  else if Ascii.eqb c "n" then Some "010"
  else if Ascii.eqb c "r" then Some "013"
  else if Ascii.eqb c "t" then Some "009"
  else None.

(** The text after an opening quote, up to the closing one. *)
Fixpoint parse_chars (s : string) : option (string * string) :=
  match s with
  | EmptyString => None
  | String c s' =>
      if Ascii.eqb c dquote then Some (EmptyString, s')
      else if Ascii.eqb c "\" then
        match s' with
        | String e s'' =>
            match unescape e, parse_chars s'' with
            | Some c', Some (text, rest) => Some (String c' text, rest)
            | _, _ => None
            end
        | EmptyString => None
        end
      else if (nat_of_ascii c <? 32)%nat then None
      else
        match parse_chars s' with
        | Some (text, rest) => Some (String c text, rest)
        | None => None
        end
  end.

Fixpoint drop (n : nat) (s : string) : string :=
  match n, s with
  | S n', String _ s' => drop n' s'
  | _, _ => s
  end.

Definition parse_literal (s : string) : option (pyval * string) :=
  if String.prefix "null" s then Some (PNone, drop 4 s)
  else if String.prefix "true" s then Some (PBool true, drop 4 s)
  else if String.prefix "false" s then Some (PBool false, drop 5 s)
  else parse_number s.

(** [d[k] = v]: a key already present keeps its place. *)
Fixpoint dict_set (d : list (string * pyval)) (k : string) (v : pyval)
  : list (string * pyval) :=
  match d with
  | [] => [(k, v)]
  | (k', v') :: d' =>
      if String.eqb k k' then (k, v) :: d' else (k', v') :: dict_set d' k v
  end.

Section Containers.

(** The parser of one value, at the nesting depth below. *)
Variable parse_nested : string -> option (pyval * string).

(** The elements of an array after the first bracket, one at least. *)
Fixpoint parse_items (fuel : nat) (s : string) (acc : list pyval)
  : option (pyval * string) :=
  match fuel with
  | O => None
  | S fuel' =>
      match parse_nested s with
      | Some (v, rest) =>
          match skip_ws rest with
          | String "," rest' => parse_items fuel' rest' (acc ++ [v])
          | String "]" rest' => Some (PList (acc ++ [v]), rest')
          | _ => None
          end
      | None => None
      end
  end.

(** The members of an object after the first brace, one at least. *)
Fixpoint parse_members (fuel : nat) (s : string)
  (acc : list (string * pyval)) : option (pyval * string) :=
  match fuel with
  | O => None
  | S fuel' =>
      match skip_ws s with
      | String c s1 =>
          match (if Ascii.eqb c dquote then parse_chars s1 else None) with
          | Some (k, s2) =>
              match skip_ws s2 with
              | String ":" s3 =>
                  match parse_nested s3 with
                  | Some (v, rest) =>
                      match skip_ws rest with
                      | String "," rest' =>
                          parse_members fuel' rest' (dict_set acc k v)
                      | String "}" rest' =>
                          Some (PDict (dict_set acc k v), rest')
                      | _ => None
                      end
                  | None => None
                  end
              | _ => None
              end
          | None => None
          end
      | EmptyString => None
      end
  end.

End Containers.

Fixpoint parse_value (fuel : nat) (s : string) : option (pyval * string) :=
  match fuel with
  | O => None
  | S fuel' =>
      match skip_ws s with
      | String "[" s' =>
          match skip_ws s' with
          | String "]" rest => Some (PList [], rest)
          | _ => parse_items (parse_value fuel') fuel' s' []
          end
      | String "{" s' =>
          match skip_ws s' with
          | String "}" rest => Some (PDict [], rest)
          | _ => parse_members (parse_value fuel') fuel' s' []
          end
      | String c s' =>
          if Ascii.eqb c dquote then
            match parse_chars s' with
            | Some (text, rest) => Some (PStr text, rest)
            | None => None
            end
          else parse_literal (String c s')
      | EmptyString => None
      end
  end.

Definition loads (s : string) : result pyval :=
  match parse_value (S (String.length s)) s with
  | Some (v, rest) =>
      match skip_ws rest with
      | EmptyString => Return v
      | _ => Raise (Exn JSONDecodeError "Extra data")
      end
  | None => Raise (Exn JSONDecodeError "Expecting value")
  end.

(** Printing. *)

Definition not_covered (what : string) : exn :=
  Exn (OtherError "NotCovered") what.

Definition hex_digit (n : nat) : ascii :=
  if (n <? 10)%nat then ascii_of_nat (48 + n) else ascii_of_nat (87 + n).

Definition escape_char (ensure_ascii : bool) (c : ascii)
  : result string :=
  let n := nat_of_ascii c in
  if Ascii.eqb c dquote then Return (String "\" (String dquote EmptyString))
  else if Ascii.eqb c "\" then Return "\\"%string
  else if Ascii.eqb c "010" then Return "\n"%string
  else if Ascii.eqb c "013" then Return "\r"%string
  else if Ascii.eqb c "009" then Return "\t"%string
  else if Ascii.eqb c "008" then Return "\b"%string
  else if Ascii.eqb c "012" then Return "\f"%string
  else if (n <? 32)%nat then
    Return (String "\" (String "u" (String "0" (String "0"
             (String (hex_digit (n / 16))
                (String (hex_digit (n mod 16)) EmptyString))))))
  else if (n <? 128)%nat then Return (String c EmptyString)
  else if ensure_ascii then Raise (not_covered "text outside ASCII")
  else Return (String c EmptyString).

Fixpoint escape (ensure_ascii : bool) (s : string) : result string :=
  match s with
  | EmptyString => Return EmptyString
  | String c s' =>
      e <- escape_char ensure_ascii c ;;
      es <- escape ensure_ascii s' ;;
      Return (e ++ es)%string
  end.

Definition quote (ensure_ascii : bool) (s : string) : result string :=
  body <- escape ensure_ascii s ;;
  Return (String dquote (body ++ String dquote EmptyString))%string.

Fixpoint dumps (ensure_ascii : bool) (v : pyval) : result string :=
  match v with
  | PNone => Return "null"%string
  | PBool true => Return "true"%string
  | PBool false => Return "false"%string
  | PInt n => Return (NilZero.string_of_int (Z.to_int n))
  | PFloat _ => Raise (not_covered "float")
  | PStr s => quote ensure_ascii s
  | PList items =>
      let fix go (l : list pyval) : result string :=
        match l with
        | [] => Return EmptyString
        | [x] => dumps ensure_ascii x
        | x :: l' =>
            t <- dumps ensure_ascii x ;;
            ts <- go l' ;;
            Return (t ++ ", " ++ ts)%string
        end in
      body <- go items ;;
      Return ("[" ++ body ++ "]")%string
  | PDict entries =>
      let fix go (l : list (string * pyval)) : result string :=
        match l with
        | [] => Return EmptyString
        | (k, x) :: l' =>
            q <- quote ensure_ascii k ;;
            t <- dumps ensure_ascii x ;;
            match l' with
            | [] => Return (q ++ ": " ++ t)%string
            | _ =>
                ts <- go l' ;;
                Return (q ++ ": " ++ t ++ ", " ++ ts)%string
            end
        end in
      body <- go entries ;;
      Return ("{" ++ body ++ "}")%string
  end.

Definition codec : JsonCodec :=
  {| json_loads := loads; json_dumps := dumps |}.

End Reference.

(** Scripted collaborators: a model that gives one answer to the analysis
    call (the one that sets [max_tokens]) and one to the rendering call,
    and tools that give one answer whatever their arguments. *)
Definition scripted_llm (analysis html : result string) : LanguageModel :=
  {| llm_ainvoke := fun max_tokens _ _ =>
       match max_tokens with
       | Some _ => analysis
       | None => html
       end |}.

Definition scripted_tool (tool_name : string) (answer : result pyval)
  : BaseTool :=
  {| name := tool_name; ainvoke := fun _ => answer |}.

(** A query tool that has rows for one query and none for any other. *)
Definition rows_for (sql : string) (rows : pyval) : BaseTool :=
  {| name := "execute_polars_sql";
     ainvoke := fun args =>
       match py_getitem args "query" with
       | Return (PStr q) =>
           if String.eqb q sql then Return rows else Return (PList [])
       | _ => Raise (Exn (OtherError "ToolException") "query must be text")
       end |}.

(** ** Runs on scripted collaborators *)

Module Examples.

Definition analysis_prompt : string := "You are an expert data analyst.".
Definition render_prompt : string := "You are a senior dashboard UI engineer.".

(** The channel keeps the last value written. *)
Definition overwrite (old new : list message) : list message := new.

Definition question : string := "trend over age".

(** The JSON text of a value. *)
Definition text_of (v : pyval) : string :=
  match Reference.dumps false v with
  | Return text => text
  | Raise _ => ""
  end.

(** The schema tool answers with one item as text and one as an object. *)
Definition schema_answer : pyval :=
  PList [PStr (text_of (PDict [("name", PStr "Age"); ("dtype", PStr "int")]));
         PDict [("name", PStr "Base Price (Cr)"); ("dtype", PStr "float")]].

Definition price_query : string :=
  "SELECT Age, COUNT(*) AS players FROM self GROUP BY Age ORDER BY Age".

Definition price_rows : pyval :=
  PList [PDict [("Age", PInt 21); ("players", PInt 4)];
         PDict [("Age", PInt 22); ("players", PInt 7)]].

Definition tools : list BaseTool :=
  [scripted_tool "list_files" (Return (PList []));
   scripted_tool "get_schema" (Return schema_answer);
   rows_for price_query price_rows].

Definition init_state : PipelineState :=
  {| messages := [HumanMessage (PStr question)];
     csv_file_path := "/tmp/uploaded_players.csv";
     tool := tools |}.

Definition html_answer : string := "<!DOCTYPE html><html></html>".

Definition answering (analysis html : string) : LanguageModel :=
  scripted_llm (Return analysis) (Return html).

(** The state the executor receives after a successful planning stage. *)
Definition handoff_plans : list pyval :=
  [PDict [("metric", PStr "Players by age");
          ("description", PStr "How many players of each age");
          ("visualization_type", PStr "bar_chart");
          ("visualization_rationale", PStr "categories");
          ("sql", PStr price_query)];
   PDict [("metric", PStr "Veterans");
          ("description", PStr "Players over 60");
          ("visualization_type", PStr "table");
          ("visualization_rationale", PStr "rows");
          ("sql", PStr "SELECT * FROM self WHERE Age > 60")]].

Definition handoff_payload : list (string * pyval) :=
  [("key_metrics", PList handoff_plans);
   ("dashboard_components", PList [PStr "charts"; PStr "tables"])].

Definition handoff_text : string := text_of (PDict handoff_payload).

(** An answer of the model: the plans and the components, and a domain. *)
Definition plan_answer : string :=
  text_of (PDict (("domain", PStr "cricket") :: handoff_payload)).

Definition state_with (last : message) (ts : list BaseTool)
  : PipelineState :=
  {| messages := [last];
     csv_file_path := "/tmp/uploaded_players.csv";
     tool := ts |}.

Definition handoff_state : PipelineState :=
  state_with (AIMessage (PStr handoff_text)) tools.

(** A last message that decodes to an object without [key_metrics]. *)
Definition empty_object_state : PipelineState :=
  state_with (AIMessage (PStr "{}")) tools.

(** The state the renderer receives after an executor run on one metric. *)
Definition records : pyval :=
  PList [PDict [("metric", PStr "Players by age");
                ("description", PStr "How many players of each age");
                ("visualization_type", PStr "bar_chart");
                ("data", price_rows)]].

Definition records_state : PipelineState :=
  state_with (AIMessage records) tools.

(** A schema whose only column has a name and no type. *)
Definition untyped_column : list pyval := [PDict [("name", PStr "Age")]].

Definition untyped_column_state : PipelineState :=
  state_with (HumanMessage (PStr question))
    [scripted_tool "get_schema" (Return (PList untyped_column))].

(** A host that loaded only the file listing. *)
Definition listing_only_state : PipelineState :=
  state_with (HumanMessage (PStr question))
    [scripted_tool "list_files" (Return (PList []))].

End Examples.

Import Examples.

(** ** More scripted collaborators *)

Module Scripts.

(** A query tool that has rows for one query and fails on any other. *)
Definition rows_or_failure (sql : string) (rows : pyval) (failure : exn)
  : BaseTool :=
  {| name := "execute_polars_sql";
     ainvoke := fun args =>
       match py_getitem args "query" with
       | Return (PStr q) =>
           if String.eqb q sql then Return rows else Raise failure
       | _ => Raise failure
       end |}.

Definition column_not_found : exn :=
  Exn (OtherError "ToolException") "column Age2 not found".

Definition strict_tools : list BaseTool :=
  [scripted_tool "get_schema" (Return schema_answer);
   rows_or_failure price_query price_rows column_not_found].

(** The hand-off of the planner, for a query tool that knows one query. *)
Definition strict_handoff_state : PipelineState :=
  state_with (AIMessage (PStr handoff_text)) strict_tools.

(** A plan with a query and nothing else. *)
Definition bare_plan : pyval := PDict [("sql", PStr price_query)].

Definition bare_plan_state : PipelineState :=
  state_with
    (AIMessage (PStr (text_of (PDict [("key_metrics", PList [bare_plan])]))))
    tools.

End Scripts.

Import Scripts.

Module Shapes.

(** Last messages that decode, to values that are no plan. *)
Definition array_state : PipelineState :=
  state_with (AIMessage (PStr "[1, 2]")) tools.

Definition null_metrics_state : PipelineState :=
  state_with
    (AIMessage (PStr (text_of (PDict [("key_metrics", PNone)])))) tools.

Definition text_metrics_state : PipelineState :=
  state_with
    (AIMessage (PStr (text_of (PDict [("key_metrics", PStr "none")]))))
    tools.

End Shapes.

Import Shapes.

Module Failures.

Definition rate_limited : exn :=
  Exn (OtherError "RateLimitError") "rate limit reached".

Definition file_not_found : exn :=
  Exn (OtherError "ToolException") "file not found".

(** A model that fails at the rendering call. *)
Definition failing_renderer : LanguageModel :=
  scripted_llm (Return plan_answer) (Raise rate_limited).

(** A model that fails at the analysis call. *)
Definition failing_analyst : LanguageModel :=
  scripted_llm (Raise rate_limited) (Return html_answer).

(** A schema tool that fails, one that answers with a text. *)
Definition failing_schema_state : PipelineState :=
  state_with (HumanMessage (PStr question))
    [scripted_tool "get_schema" (Raise file_not_found)].

Definition text_schema_state : PipelineState :=
  state_with (HumanMessage (PStr question))
    [scripted_tool "get_schema"
       (Return (PStr (text_of (PDict [("name", PStr "Age");
                                      ("dtype", PStr "int")]))))].

Definition null_schema_state : PipelineState :=
  state_with (HumanMessage (PStr question))
    [scripted_tool "get_schema" (Return PNone)].

(** A state without any message. *)
Definition silent_state : PipelineState :=
  {| messages := [];
     csv_file_path := "/tmp/uploaded_players.csv";
     tool := tools |}.

End Failures.

Import Failures.

Module Pages.

(** A component that displays whatever it is given. *)
Definition displays (html : pyval) : result unit := Return tt.

(** A model whose two answers are given. *)
Definition silent_renderer : LanguageModel := answering plan_answer "".

(** An agent that fails, and one that answers the question. *)
Definition failing_agent : ReactAgent :=
  {| agent_ainvoke := fun _ _ _ => Raise rate_limited |}.

Definition answering_agent : ReactAgent :=
  {| agent_ainvoke := fun _ _ asked =>
       Return [HumanMessage (PStr asked);
               AIMessage (PStr "The average age is 27.")] |}.

Definition agent_prompt : string := "You are a smart CSV data analyst.".

End Pages.

Import Pages.

(** ** The error kinds of the design *)

(** The design names five kinds of failure; the source raises built-in
    exceptions. Each kind is the set of exceptions of its raise sites. *)
Definition SchemaInvalid (e : exn) : Prop :=
  e = Exn ValueError "Empty schema returned"
  \/ e = Exn ValueError
           "Schema items missing required keys after normalization"
  \/ exists why, e = Exn ValueError ("Failed to parse schema items: " ++ why).

Definition ModelOutputInvalid (e : exn) : Prop :=
  e = Exn RuntimeError "LLM returned empty content for schema analysis."
  \/ exists why, e = Exn ValueError ("Failed to parse analysis JSON: " ++ why).

Definition ModelOutputIncomplete (e : exn) : Prop :=
  exists k, e = Exn ValueError ("Analysis JSON missing required key: " ++ k).

Definition MalformedPlan (e : exn) : Prop :=
  exists why,
    e = Exn ValueError ("Failed to parse AIMessage content as JSON: " ++ why).

(** A state none of whose tools has the given name. *)
Definition no_tool_named (n : string) (st : PipelineState) : Prop :=
  forall t, In t (tool st) -> name t <> n.

Section Statements.

Context `{Json : JsonCodec} `{LLM : LanguageModel}.
Variable INSTRUCTIONS_CSV_ANALYSIS_AND_SCHEMA : string.
Variable INSTRUCTIONS_RENDER_DASHBOARD_FROM_DATA : string.
Variable messages_reducer : list message -> list message -> list message.

#[local] Abbreviation schema_node :=
  (node_schema INSTRUCTIONS_CSV_ANALYSIS_AND_SCHEMA).
#[local] Abbreviation schema_try :=
  (node_schema_try INSTRUCTIONS_CSV_ANALYSIS_AND_SCHEMA).
#[local] Abbreviation render_node :=
  (node_render_html INSTRUCTIONS_RENDER_DASHBOARD_FROM_DATA).

#[local] Abbreviation run_pipeline :=
  (ainvoke_pipeline INSTRUCTIONS_CSV_ANALYSIS_AND_SCHEMA
     INSTRUCTIONS_RENDER_DASHBOARD_FROM_DATA messages_reducer).
#[local] Abbreviation write := (apply_update messages_reducer).

(** The planner got as far as the model, and the model answered. *)
Definition planner_receives (st : PipelineState) (analysis : string)
  : Prop :=
  exists get_schema wrapped schema_list request,
    find_tool "get_schema" (tool st) = Some get_schema
    /\ ainvoke get_schema
         (PDict [("file_location", PStr (csv_file_path st));
                 ("file_type", PStr "csv")]) = Return wrapped
    /\ normalize_schema wrapped = Return schema_list
    /\ check_schema schema_list = Return tt
    /\ analysis_request st schema_list = Return request
    /\ llm_ainvoke (Some 10151%Z) INSTRUCTIONS_CSV_ANALYSIS_AND_SCHEMA
         request = Return analysis.

(** A plan with the four fields the executor reads, for whose query the
    tool answers. *)
Definition answered_plan (st : PipelineState) (exec_tool : BaseTool)
  (m : pyval) : Prop :=
  exists d sql metric description visualization_type data,
    m = PDict d
    /\ lookup "sql" d = Some sql
    /\ lookup "metric" d = Some metric
    /\ lookup "description" d = Some description
    /\ lookup "visualization_type" d = Some visualization_type
    /\ ainvoke exec_tool (query_arguments st sql) = Return data.

(** [record] is the record of plan [m]: the three descriptive fields of
    the plan, and under ["data"] the tool's answer to the plan's query,
    an empty list standing for an answer that is false. *)
Definition materialises (st : PipelineState) (exec_tool : BaseTool)
  (m record : pyval) : Prop :=
  exists d sql metric description visualization_type data,
    m = PDict d
    /\ lookup "sql" d = Some sql
    /\ lookup "metric" d = Some metric
    /\ lookup "description" d = Some description
    /\ lookup "visualization_type" d = Some visualization_type
    /\ ainvoke exec_tool (query_arguments st sql) = Return data
    /\ record = PDict [("metric", metric);
                       ("description", description);
                       ("visualization_type", visualization_type);
                       ("data", py_or data (PList []))]
    /\ (forall rows, data = PList rows -> py_or data (PList []) = data).

(** A schema entry with a name and a type: a dictionary with the keys
    ["name"] and ["dtype"]. *)
Definition names_and_types (x : pyval) : Prop :=
  exists d n t,
    x = PDict d /\ lookup "name" d = Some n /\ lookup "dtype" d = Some t.

(** The run of the three stages, written out. *)
Definition three_stages (st0 : PipelineState)
  : list stage_run * result PipelineState :=
  match schema_node st0 with
  | Raise e =>
      ([{| stage := "schema"; before := st0; after := Raise e |}], Raise e)
  | Return u1 =>
      let st1 := write st0 u1 in
      let s1 := {| stage := "schema"; before := st0;
                   after := Return st1 |} in
      match node_execute_sql st1 with
      | Raise e =>
          ([s1; {| stage := "execute_sql"; before := st1;
                   after := Raise e |}], Raise e)
      | Return u2 =>
          let st2 := write st1 u2 in
          let s2 := {| stage := "execute_sql"; before := st1;
                       after := Return st2 |} in
          match render_node st2 with
          | Raise e =>
              ([s1; s2; {| stage := "render_html"; before := st2;
                           after := Raise e |}], Raise e)
          | Return u3 =>
              let st3 := write st2 u3 in
              ([s1; s2; {| stage := "render_html"; before := st2;
                           after := Return st3 |}], Return st3)
          end
      end
  end.

(** An update none of whose keys is [csv_file_path] or [tool]. *)
Definition leaves_location_and_tools (u : state_update) : Prop :=
  Forall (fun kv => fst kv <> "csv_file_path" /\ fst kv <> "tool") u.

(** A state with the dataset location and the tools of [st0]. *)
Definition same_location_and_tools (st0 st : PipelineState) : Prop :=
  csv_file_path st = csv_file_path st0 /\ tool st = tool st0.

(** What a stage of a run from [st0] must satisfy: it received the
    location and tools of [st0] and, if it returned, left them. *)
Definition stage_keeps (st0 : PipelineState) (r : stage_run) : Prop :=
  same_location_and_tools st0 (before r)
  /\ match after r with
     | Return st' => same_location_and_tools st0 st'
     | Raise _ => True
     end.

Definition update_keeps (r : result state_update) : Prop :=
  match r with
  | Return u => leaves_location_and_tools u
  | Raise _ => True
  end.

End Statements.

(** ** What the further properties speak of *)

(** The value of the [messages] channel after a write of one message ends
    with that message: so it is when the channel appends, and when it
    keeps the last value written. *)
Definition written_last
  (messages_reducer : list message -> list message -> list message) : Prop :=
  forall old m, last_message (messages_reducer old [m]) = Return m.

(** Values [json.loads] can yield that are no object. *)
Definition not_an_object (v : pyval) : Prop :=
  match v with
  | PDict _ => False
  | _ => True
  end.

(** Values a [for] loop cannot walk. *)
Definition not_iterable (v : pyval) : Prop :=
  match v with
  | PNone | PBool _ | PInt _ | PFloat _ => True
  | _ => False
  end.

(** Empty text, an empty list, an empty object. *)
Definition empty_container (v : pyval) : Prop :=
  v = PStr "" \/ v = PList [] \/ v = PDict [].

(** Text and objects with something in them: walking them yields text. *)
Definition walks_to_text (v : pyval) : Prop :=
  (exists c s, v = PStr (String c s))
  \/ (exists kv entries, v = PDict (kv :: entries)).

(** The state the page starts the pipeline on. *)
Definition page_state (path query : string) (tools : list BaseTool)
  : PipelineState :=
  {| messages := [HumanMessage (PStr query)];
     csv_file_path := path;
     tool := tools |}.

Section FurtherStatements.

Context `{Json : JsonCodec}.

(** [x] is what normalization makes of [item]: text is decoded, anything
    else is kept. *)
Definition normalized (item x : pyval) : Prop :=
  match item with
  | PStr s => json_loads s = Return x
  | _ => x = item
  end.

End FurtherStatements.

(** ** Properties *)

Lemma bind_Return {A B : Type} (r : result A) (k : A -> result B) (b : B) :
  bind r k = Return b -> exists a, r = Return a /\ k a = Return b.
Proof.
  destruct r as [a | e]; cbn [bind]; intros Hk.
  - exists a. split; [reflexivity | exact Hk].
  - discriminate Hk.
Qed.

(** Splits a hypothesis [x <- r ;; k = Return b] into its first step,
    named [x] with equation [E], and the rest, which replaces it. *)
Ltac bind_step H x E :=
  let H' := fresh in
  destruct (bind_Return _ _ _ H) as [x [E H']]; clear H; rename H' into H.

Lemma find_tool_absent (n : string) (tools : list BaseTool) :
  (forall t, In t tools -> name t <> n) -> find_tool n tools = None.
Proof.
  unfold find_tool. induction tools as [| t tools IH]; intros Hno.
  - reflexivity.
  - cbn [find]. destruct (String.eqb_spec (name t) n) as [Heq | Hne].
    + exfalso. apply (Hno t); [left; reflexivity | exact Heq].
    + apply IH. intros t' Hin. apply Hno. right. exact Hin.
Qed.

Section Properties.

Context `{Json : JsonCodec} `{LLM : LanguageModel}.
Variable INSTRUCTIONS_CSV_ANALYSIS_AND_SCHEMA : string.
Variable INSTRUCTIONS_RENDER_DASHBOARD_FROM_DATA : string.
Variable messages_reducer : list message -> list message -> list message.

#[local] Abbreviation schema_node :=
  (node_schema INSTRUCTIONS_CSV_ANALYSIS_AND_SCHEMA).
#[local] Abbreviation schema_try :=
  (node_schema_try INSTRUCTIONS_CSV_ANALYSIS_AND_SCHEMA).
#[local] Abbreviation render_node :=
  (node_render_html INSTRUCTIONS_RENDER_DASHBOARD_FROM_DATA).

#[local] Abbreviation run_pipeline :=
  (ainvoke_pipeline INSTRUCTIONS_CSV_ANALYSIS_AND_SCHEMA
     INSTRUCTIONS_RENDER_DASHBOARD_FROM_DATA messages_reducer).
#[local] Abbreviation write := (apply_update messages_reducer).
#[local] Abbreviation receives :=
  (planner_receives INSTRUCTIONS_CSV_ANALYSIS_AND_SCHEMA).

Lemma planner_receives_continues st analysis :
  receives st analysis -> schema_try st = spec_message analysis.
Proof.
  intros (get_schema & wrapped & schema_list & request
          & Hfind & Htool & Hnorm & Hcheck & Hreq & Hllm).
  unfold node_schema_try. rewrite Hfind, Htool. cbn [bind].
  rewrite Hnorm. cbn [bind]. rewrite Hcheck. cbn [bind].
  rewrite Hreq. cbn [bind]. rewrite Hllm. reflexivity.
Qed.

Lemma schema_try_success st u :
  schema_try st = Return u ->
  exists analysis,
    receives st analysis /\ spec_message analysis = Return u.
Proof.
  unfold node_schema_try. intros H.
  destruct (find_tool "get_schema" (tool st)) as [get_schema |] eqn:Hfind;
    [| discriminate H].
  bind_step H wrapped Htool. bind_step H schema_list Hnorm.
  bind_step H ok Hcheck. destruct ok.
  bind_step H request Hreq. bind_step H analysis Hllm.
  exists analysis. split; [| exact H].
  exists get_schema, wrapped, schema_list, request.
  repeat split; assumption.
Qed.

Lemma spec_message_shape analysis u :
  spec_message analysis = Return u ->
  exists text, u = [("messages", UMessages [AIMessage (PStr text)])].
Proof.
  unfold spec_message. intros H.
  bind_step H spec Hparse. bind_step H ok Hkeys.
  bind_step H minimal Hmin. bind_step H text Hdump.
  exists text. injection H as <-. reflexivity.
Qed.

(** C2. Whatever fails inside [node_schema], the node raises nothing: it
    returns either the message with the plan or, when its body raised
    [e], the dictionary with the tag ["node_schema_failed"] and the
    details [str(e)]. *)
Theorem node_schema_contains_failures (st : PipelineState) :
  (exists text,
      schema_try st
      = Return [("messages", UMessages [AIMessage (PStr text)])]
      /\ schema_node st
         = Return [("messages", UMessages [AIMessage (PStr text)])])
  \/ (exists e,
        schema_try st = Raise e
        /\ schema_node st
           = Return [("error", UStr "node_schema_failed");
                     ("details", UStr (exn_str e))]).
Proof.
  unfold node_schema.
  destruct (schema_try st) as [u | e] eqn:Htry.
  - left. destruct (schema_try_success st u Htry) as [analysis [_ Hmsg]].
    destruct (spec_message_shape _ _ Hmsg) as [text ->].
    exists text. split; reflexivity.
  - right. exists e. split; reflexivity.
Qed.

(** C10. Without a tool named ["execute_polars_sql"] the executor raises
    and returns no update; without a tool named ["get_schema"] the
    planner returns its error payload. *)
Theorem missing_tool_raises_or_is_contained (st1 st2 : PipelineState) :
  no_tool_named "execute_polars_sql" st1 ->
  no_tool_named "get_schema" st2 ->
  node_execute_sql st1
  = Raise (Exn RuntimeError "coroutine raised StopIteration")
  /\ (forall u, node_execute_sql st1 <> Return u)
  /\ schema_node st2
     = Return [("error", UStr "node_schema_failed");
               ("details", UStr "get_schema tool not found")].
Proof.
  intros Hexec Hschema.
  unfold node_execute_sql, node_schema, node_schema_try.
  rewrite (find_tool_absent _ _ Hexec), (find_tool_absent _ _ Hschema).
  repeat split. intros u Hu. discriminate Hu.
Qed.

(** *** The executor *)

Lemma py_or_list (rows : list pyval) :
  py_or (PList rows) (PList []) = PList rows.
Proof. destruct rows; reflexivity. Qed.

Lemma execute_metric_answered st exec_tool m :
  answered_plan st exec_tool m ->
  exists record,
    execute_metric st exec_tool m = Return record
    /\ materialises st exec_tool m record.
Proof.
  intros (d & sql & metric & description & vt & data
          & -> & Hsql & Hmetric & Hdesc & Hvt & Htool).
  eexists. split.
  - unfold execute_metric, py_getitem.
    rewrite Hsql. cbn [bind]. rewrite Htool. cbn [bind].
    rewrite Hmetric, Hdesc, Hvt. cbn [bind]. reflexivity.
  - exists d, sql, metric, description, vt, data.
    repeat split; try assumption.
    intros rows ->. apply py_or_list.
Qed.

Lemma execute_metrics_answered st exec_tool plans :
  Forall (answered_plan st exec_tool) plans ->
  forall results,
  exists records,
    execute_metrics st exec_tool plans results
    = Return (results ++ records)
    /\ Forall2 (materialises st exec_tool) plans records.
Proof.
  induction 1 as [| m plans Hm _ IH]; intros results.
  - exists []. cbn [execute_metrics]. rewrite app_nil_r.
    split; [reflexivity | constructor].
  - destruct (execute_metric_answered st exec_tool m Hm)
      as (record & Hrun & Hrec).
    destruct (IH (results ++ [record])) as (records & Hrest & Hall).
    exists (record :: records). cbn [execute_metrics].
    rewrite Hrun. cbn [bind]. rewrite Hrest, <- app_assoc.
    split; [reflexivity | constructor; assumption].
Qed.

Lemma executor_after_decoding st exec_tool last payload :
  find_tool "execute_polars_sql" (tool st) = Some exec_tool ->
  last_message (messages st) = Return last ->
  py_json_loads (content last) = Return payload ->
  node_execute_sql st = execute_plan st exec_tool payload.
Proof.
  intros Hfind Hlast Hload. unfold node_execute_sql, decode_plan.
  rewrite Hfind, Hlast. cbn [bind]. rewrite Hload. reflexivity.
Qed.

(** C1. On a plan of N metrics the executor returns N records, in plan
    order; the i-th keeps the metric, description and visualization type
    of the i-th plan and carries the answer of the tool to its query (an
    empty list when the answer is empty). *)
Theorem executor_materialises_every_plan
  (st : PipelineState) (exec_tool : BaseTool) (last : message)
  (payload : list (string * pyval)) (plans : list pyval) :
  find_tool "execute_polars_sql" (tool st) = Some exec_tool ->
  last_message (messages st) = Return last ->
  py_json_loads (content last) = Return (PDict payload) ->
  lookup "key_metrics" payload = Some (PList plans) ->
  Forall (answered_plan st exec_tool) plans ->
  exists records,
    node_execute_sql st
    = Return [("messages", UMessages [AIMessage (PList records)])]
    /\ List.length records = List.length plans
    /\ Forall2 (materialises st exec_tool) plans records.
Proof.
  intros Hfind Hlast Hload Hkey Hplans.
  destruct (execute_metrics_answered st exec_tool plans Hplans [])
    as (records & Hrun & Hall).
  exists records. split; [| split].
  - rewrite (executor_after_decoding st exec_tool last _ Hfind Hlast Hload).
    unfold execute_plan, py_get. rewrite Hkey. cbn [bind py_iter].
    rewrite Hrun. reflexivity.
  - symmetry. exact (Forall2_length Hall).
  - exact Hall.
Qed.

(** C4, as the code has it. The executor raises its [ValueError] on the
    last message when [json.loads] raises on its content; when the
    content decodes, the executor goes on to the plan, and a decoded
    object without [key_metrics] is an empty plan: the executor returns
    an empty list of records. *)
Theorem executor_fails_when_decoding_fails
  (st : PipelineState) (exec_tool : BaseTool) (last : message) :
  find_tool "execute_polars_sql" (tool st) = Some exec_tool ->
  last_message (messages st) = Return last ->
  (forall e,
      py_json_loads (content last) = Raise e ->
      MalformedPlan
        (Exn ValueError
           ("Failed to parse AIMessage content as JSON: " ++ exn_str e))
      /\ node_execute_sql st
         = Raise (Exn ValueError
                    ("Failed to parse AIMessage content as JSON: "
                     ++ exn_str e)))
  /\ (forall payload,
        py_json_loads (content last) = Return payload ->
        node_execute_sql st = execute_plan st exec_tool payload)
  /\ (forall d,
        py_json_loads (content last) = Return (PDict d) ->
        lookup "key_metrics" d = None ->
        node_execute_sql st
        = Return [("messages", UMessages [AIMessage (PList [])])]).
Proof.
  intros Hfind Hlast. split; [| split].
  - intros e Hload. split; [exists (exn_str e); reflexivity |].
    unfold node_execute_sql, decode_plan.
    rewrite Hfind, Hlast. cbn [bind]. rewrite Hload. reflexivity.
  - intros payload Hload.
    exact (executor_after_decoding st exec_tool last payload
             Hfind Hlast Hload).
  - intros d Hload Hkey.
    rewrite (executor_after_decoding st exec_tool last _ Hfind Hlast Hload).
    unfold execute_plan, py_get. rewrite Hkey. reflexivity.
Qed.

(** *** The renderer *)

(** C5, as the code has it. The renderer returns the content of the
    model's answer as it is, empty or not; it checks nothing. *)
Theorem renderer_returns_model_content
  (st : PipelineState) (last : message) (request html : string) :
  last_message (messages st) = Return last ->
  json_dumps true (PDict [("metrics", content last)]) = Return request ->
  llm_ainvoke None INSTRUCTIONS_RENDER_DASHBOARD_FROM_DATA request
  = Return html ->
  render_node st = Return [("messages", UMessages [AIMessage (PStr html)])].
Proof.
  intros Hlast Hdump Hllm. unfold node_render_html.
  rewrite Hlast. cbn [bind]. rewrite Hdump. cbn [bind].
  rewrite Hllm. reflexivity.
Qed.

(** *** The planner *)

Lemma has_key_true (k : string) (d : list (string * pyval)) :
  has_key k d = true <-> exists v, lookup k d = Some v.
Proof.
  unfold has_key. destruct (lookup k d) as [v |]; split.
  - intros _. exists v. reflexivity.
  - reflexivity.
  - discriminate.
  - intros [v Hv]. discriminate Hv.
Qed.

Lemma schema_item_ok_names_and_types (x : pyval) :
  schema_item_ok x = true <-> names_and_types x.
Proof.
  split.
  - destruct x as [| | | | | | d]; cbn [schema_item_ok]; try discriminate.
    intros H. apply andb_true_iff in H. destruct H as [Hn Ht].
    apply has_key_true in Hn. apply has_key_true in Ht.
    destruct Hn as [n Hn]. destruct Ht as [t Ht].
    exists d, n, t. repeat split; assumption.
  - intros (d & n & t & -> & Hn & Ht). cbn [schema_item_ok].
    apply andb_true_iff. split; apply has_key_true; eauto.
Qed.

Lemma check_schema_passes (schema_list : list pyval) :
  schema_list <> [] ->
  (forall x, In x (firstn 2 schema_list) -> names_and_types x) ->
  check_schema schema_list = Return tt.
Proof.
  intros Hne Hall. unfold check_schema.
  destruct schema_list as [| x0 rest]; [contradiction Hne; reflexivity |].
  replace (forallb schema_item_ok (firstn 2 (x0 :: rest))) with true;
    [reflexivity |].
  symmetry. apply forallb_forall. intros x Hin.
  apply schema_item_ok_names_and_types. apply Hall. exact Hin.
Qed.

Lemma check_schema_rejects (schema_list : list pyval) (x : pyval) :
  In x (firstn 2 schema_list) ->
  ~ names_and_types x ->
  check_schema schema_list
  = Raise (Exn ValueError
             "Schema items missing required keys after normalization").
Proof.
  intros Hin Hbad. unfold check_schema.
  destruct schema_list as [| x0 rest]; [contradiction Hin |].
  destruct (forallb schema_item_ok (firstn 2 (x0 :: rest))) eqn:Hall;
    [| reflexivity].
  exfalso. apply Hbad. apply schema_item_ok_names_and_types.
  rewrite forallb_forall in Hall. apply Hall. exact Hin.
Qed.

(** C6, as the code has it. With the normalized column list in hand, the
    planner fails with [SchemaInvalid] when the list is empty or when
    one of its first two entries is not a dictionary with both a name
    and a type; otherwise the check passes and the planner goes on to
    the model. *)
Theorem planner_checks_first_two_columns
  (st : PipelineState) (get_schema : BaseTool) (wrapped : pyval)
  (schema_list : list pyval) :
  find_tool "get_schema" (tool st) = Some get_schema ->
  ainvoke get_schema
    (PDict [("file_location", PStr (csv_file_path st));
            ("file_type", PStr "csv")]) = Return wrapped ->
  normalize_schema wrapped = Return schema_list ->
  (schema_list = [] ->
   SchemaInvalid (Exn ValueError "Empty schema returned")
   /\ schema_try st = Raise (Exn ValueError "Empty schema returned"))
  /\ (forall x,
        In x (firstn 2 schema_list) ->
        ~ names_and_types x ->
        SchemaInvalid
          (Exn ValueError
             "Schema items missing required keys after normalization")
        /\ schema_try st
           = Raise (Exn ValueError
                      "Schema items missing required keys after normalization"))
  /\ (schema_list <> [] ->
      (forall x, In x (firstn 2 schema_list) -> names_and_types x) ->
      check_schema schema_list = Return tt
      /\ schema_try st
         = (request <- analysis_request st schema_list ;;
            analysis <- llm_ainvoke (Some 10151%Z)
                          INSTRUCTIONS_CSV_ANALYSIS_AND_SCHEMA request ;;
            spec_message analysis)).
Proof.
  intros Hfind Htool Hnorm.
  assert (Hrun : schema_try st
                 = (check_schema schema_list ;;;
                    request <- analysis_request st schema_list ;;
                    analysis <- llm_ainvoke (Some 10151%Z)
                                  INSTRUCTIONS_CSV_ANALYSIS_AND_SCHEMA
                                  request ;;
                    spec_message analysis)).
  { unfold node_schema_try. rewrite Hfind, Htool. cbn [bind].
    rewrite Hnorm. reflexivity. }
  split; [| split].
  - intros ->. split; [left; reflexivity |].
    rewrite Hrun. reflexivity.
  - intros x Hin Hbad. split; [right; left; reflexivity |].
    rewrite Hrun, (check_schema_rejects schema_list x Hin Hbad).
    reflexivity.
  - intros Hne Hall.
    pose proof (check_schema_passes schema_list Hne Hall) as Hpass.
    split; [exact Hpass |]. rewrite Hrun, Hpass. reflexivity.
Qed.

Lemma parse_analysis_success (analysis : string) (spec : pyval) :
  parse_analysis analysis = Return spec ->
  analysis <> "" /\ json_loads analysis = Return spec.
Proof.
  unfold parse_analysis.
  destruct (String.eqb_spec analysis "") as [-> | Hne]; [discriminate |].
  intros H. split; [exact Hne |].
  unfold try_except_class in H.
  destruct (json_loads analysis) as [v | je]; [exact H |].
  destruct (exn_class_eqb (exn_cls je) JSONDecodeError); discriminate H.
Qed.

Lemma parse_analysis_decoded (analysis : string) (spec : pyval) :
  analysis <> "" ->
  json_loads analysis = Return spec ->
  parse_analysis analysis = Return spec.
Proof.
  intros Hne Hload. unfold parse_analysis.
  destruct (String.eqb_spec analysis "") as [-> | _];
    [contradiction Hne; reflexivity |].
  rewrite Hload. reflexivity.
Qed.

(** C7, as the code has it. An empty answer and an answer that is not
    JSON fail with [ModelOutputInvalid]; an answer that decodes to an
    object without [key_metrics], or with it and without
    [dashboard_components], fails with [ModelOutputIncomplete]; an
    answer that decodes to an object with both keys yields the message
    with the spec. *)
Theorem planner_judges_model_answer
  (st : PipelineState) (analysis : string) :
  receives st analysis ->
  (analysis = "" ->
   ModelOutputInvalid
     (Exn RuntimeError "LLM returned empty content for schema analysis.")
   /\ schema_try st
      = Raise (Exn RuntimeError
                 "LLM returned empty content for schema analysis."))
  /\ (forall je,
        analysis <> "" ->
        json_loads analysis = Raise je ->
        exn_cls je = JSONDecodeError ->
        ModelOutputInvalid
          (Exn ValueError ("Failed to parse analysis JSON: " ++ exn_str je))
        /\ schema_try st
           = Raise (Exn ValueError
                      ("Failed to parse analysis JSON: " ++ exn_str je)))
  /\ (forall d,
        analysis <> "" ->
        json_loads analysis = Return (PDict d) ->
        lookup "key_metrics" d = None ->
        ModelOutputIncomplete
          (Exn ValueError "Analysis JSON missing required key: key_metrics")
        /\ schema_try st
           = Raise (Exn ValueError
                      "Analysis JSON missing required key: key_metrics"))
  /\ (forall d key_metrics,
        analysis <> "" ->
        json_loads analysis = Return (PDict d) ->
        lookup "key_metrics" d = Some key_metrics ->
        lookup "dashboard_components" d = None ->
        ModelOutputIncomplete
          (Exn ValueError
             "Analysis JSON missing required key: dashboard_components")
        /\ schema_try st
           = Raise (Exn ValueError
                      "Analysis JSON missing required key: dashboard_components"))
  /\ (forall d key_metrics dashboard_components text,
        analysis <> "" ->
        json_loads analysis = Return (PDict d) ->
        lookup "key_metrics" d = Some key_metrics ->
        lookup "dashboard_components" d = Some dashboard_components ->
        json_dumps false
          (PDict [("key_metrics", key_metrics);
                  ("dashboard_components", dashboard_components)])
        = Return text ->
        schema_try st
        = Return [("messages", UMessages [AIMessage (PStr text)])]).
Proof.
  intros Hrecv. rewrite (planner_receives_continues st analysis Hrecv).
  unfold spec_message. split; [| split; [| split; [| split]]].
  - intros ->. split; [left; reflexivity | reflexivity].
  - intros je Hne Hload Hcls. split; [right; eexists; reflexivity |].
    unfold parse_analysis, try_except_class.
    destruct (String.eqb_spec analysis "") as [Heq | _];
      [contradiction |].
    rewrite Hload, Hcls. reflexivity.
  - intros d Hne Hload Hkm.
    split; [exists "key_metrics"; reflexivity |].
    rewrite (parse_analysis_decoded analysis _ Hne Hload).
    cbn [bind require_keys py_in]. unfold has_key. rewrite Hkm.
    reflexivity.
  - intros d km Hne Hload Hkm Hdc.
    split; [exists "dashboard_components"; reflexivity |].
    rewrite (parse_analysis_decoded analysis _ Hne Hload).
    cbn [bind require_keys py_in]. unfold has_key. rewrite Hkm, Hdc.
    reflexivity.
  - intros d km dc text Hne Hload Hkm Hdc Hdump.
    rewrite (parse_analysis_decoded analysis _ Hne Hload).
    cbn [bind require_keys py_in]. unfold has_key. rewrite Hkm, Hdc.
    cbn [bind]. unfold minimal_spec, py_get. rewrite Hkm, Hdc.
    cbn [bind]. rewrite Hdump. reflexivity.
Qed.

Lemma require_keys_both (spec : pyval) :
  require_keys ["key_metrics"; "dashboard_components"] spec = Return tt ->
  py_in "key_metrics" spec = Return true
  /\ py_in "dashboard_components" spec = Return true.
Proof.
  cbn [require_keys]. intros H.
  destruct (py_in "key_metrics" spec) as [[|] | e]; cbn [bind] in H;
    try discriminate H.
  destruct (py_in "dashboard_components" spec) as [[|] | e];
    cbn [bind] in H; try discriminate H.
  split; reflexivity.
Qed.

(** C8. When planning succeeds, the message handed to the next stage is
    the serialization of a dictionary with exactly two entries, the
    [key_metrics] and the [dashboard_components] of the object the
    model's answer decodes to; nothing else of that object is in it. *)
Theorem planner_hands_off_minimal_spec
  (st : PipelineState) (u : state_update) :
  schema_try st = Return u ->
  exists analysis d key_metrics dashboard_components text,
    receives st analysis
    /\ json_loads analysis = Return (PDict d)
    /\ lookup "key_metrics" d = Some key_metrics
    /\ lookup "dashboard_components" d = Some dashboard_components
    /\ json_dumps false
         (PDict [("key_metrics", key_metrics);
                 ("dashboard_components", dashboard_components)])
       = Return text
    /\ u = [("messages", UMessages [AIMessage (PStr text)])].
Proof.
  intros Htry.
  destruct (schema_try_success st u Htry) as (analysis & Hrecv & H).
  unfold spec_message in H.
  bind_step H spec Hparse. bind_step H ok Hkeys. destruct ok.
  bind_step H minimal Hmin. bind_step H text Hdump.
  injection H as <-.
  apply parse_analysis_success in Hparse. destruct Hparse as [_ Hload].
  apply require_keys_both in Hkeys. destruct Hkeys as [Hkm Hdc].
  destruct spec as [| | | | | | d];
    try (unfold minimal_spec in Hmin; cbn in Hmin; discriminate Hmin).
  cbn [py_in] in Hkm, Hdc.
  injection Hkm as Hkm. injection Hdc as Hdc.
  apply has_key_true in Hkm. apply has_key_true in Hdc.
  destruct Hkm as [km Hkm]. destruct Hdc as [dc Hdc].
  unfold minimal_spec, py_get in Hmin. rewrite Hkm, Hdc in Hmin.
  cbn [bind] in Hmin. injection Hmin as <-.
  exists analysis, d, km, dc, text. repeat split; assumption.
Qed.

(** *** The coordinator *)

Lemma run_pipeline_stages (st0 : PipelineState) :
  run_pipeline st0
  = three_stages INSTRUCTIONS_CSV_ANALYSIS_AND_SCHEMA
      INSTRUCTIONS_RENDER_DASHBOARD_FROM_DATA messages_reducer st0.
Proof.
  unfold ainvoke_pipeline, three_stages, recursion_limit.
  cbn [build_pipeline_graph entry_point graph_nodes graph_edges
       invoke_from assoc String.eqb Ascii.eqb Bool.eqb END].
  destruct (schema_node st0) as [u1 | e1]; [| reflexivity].
  cbn [build_pipeline_graph entry_point graph_nodes graph_edges
       invoke_from assoc String.eqb Ascii.eqb Bool.eqb END].
  destruct (node_execute_sql (write st0 u1)) as [u2 | e2];
    [| reflexivity].
  cbn [build_pipeline_graph entry_point graph_nodes graph_edges
       invoke_from assoc String.eqb Ascii.eqb Bool.eqb END].
  destruct (render_node (write (write st0 u1) u2)) as [u3 | e3];
    reflexivity.
Qed.

Lemma write_channel_frame (st : PipelineState) (kv : string * update_value) :
  fst kv <> "csv_file_path" /\ fst kv <> "tool" ->
  same_location_and_tools st (write_channel messages_reducer st kv).
Proof.
  destruct kv as [k v]. cbn [fst]. intros [Hcsv Htool].
  unfold same_location_and_tools, write_channel.
  destruct v as [ms | s | ts].
  - destruct (String.eqb k "messages"); split; reflexivity.
  - destruct (String.eqb_spec k "csv_file_path"); [contradiction |].
    split; reflexivity.
  - destruct (String.eqb_spec k "tool"); [contradiction |].
    split; reflexivity.
Qed.

Lemma apply_update_frame (u : state_update) :
  leaves_location_and_tools u ->
  forall st, same_location_and_tools st (write st u).
Proof.
  unfold apply_update.
  induction 1 as [| kv u Hkv _ IH]; intros st; cbn [fold_left].
  - split; reflexivity.
  - destruct (write_channel_frame st kv Hkv) as [Hc Ht].
    destruct (IH (write_channel messages_reducer st kv)) as [Hc' Ht'].
    split; congruence.
Qed.

Lemma messages_update_leaves (ms : list message) :
  leaves_location_and_tools [("messages", UMessages ms)].
Proof. repeat constructor; cbn [fst]; discriminate. Qed.

Lemma error_payload_leaves (e : exn) :
  leaves_location_and_tools (error_payload e).
Proof. repeat constructor; cbn [fst]; discriminate. Qed.

Lemma schema_node_leaves (st : PipelineState) (u : state_update) :
  schema_node st = Return u -> leaves_location_and_tools u.
Proof.
  unfold node_schema. intros H.
  destruct (schema_try st) as [u' | e] eqn:Htry; cbn [try_except] in H;
    injection H as <-.
  - destruct (schema_try_success st u' Htry) as (analysis & _ & Hmsg).
    destruct (spec_message_shape _ _ Hmsg) as [text ->].
    apply messages_update_leaves.
  - apply (error_payload_leaves e).
Qed.

Lemma execute_node_leaves (st : PipelineState) (u : state_update) :
  node_execute_sql st = Return u -> leaves_location_and_tools u.
Proof.
  unfold node_execute_sql. intros H.
  destruct (find_tool "execute_polars_sql" (tool st)) as [exec_tool |];
    [| discriminate H].
  bind_step H payload Hload. unfold execute_plan in H.
  bind_step H key_metrics Hkm. bind_step H plans Hiter.
  bind_step H results Hrun. injection H as <-.
  apply messages_update_leaves.
Qed.

Lemma render_node_leaves (st : PipelineState) (u : state_update) :
  render_node st = Return u -> leaves_location_and_tools u.
Proof.
  unfold node_render_html. intros H.
  bind_step H final Hlast. bind_step H request Hdump.
  bind_step H html Hllm. injection H as <-.
  apply messages_update_leaves.
Qed.

Ltac stages_keep :=
  repeat (apply Forall_cons;
          [split; cbn [before after]; (assumption || exact I) |]);
  apply Forall_nil.

(** C9. No node returns an update with the key [csv_file_path] or
    [tool]; so in every run each stage receives, and leaves, the
    dataset location and the tools of the initial state, and so does
    the final state. *)
Theorem location_and_tools_never_change (st0 : PipelineState) :
  (forall st,
      update_keeps (schema_node st)
      /\ update_keeps (node_execute_sql st)
      /\ update_keeps (render_node st))
  /\ Forall (stage_keeps st0) (fst (run_pipeline st0))
  /\ match snd (run_pipeline st0) with
     | Return st => same_location_and_tools st0 st
     | Raise _ => True
     end.
Proof.
  split.
  - intros st. unfold update_keeps. repeat split.
    + destruct (schema_node st) eqn:H; [| exact I].
      exact (schema_node_leaves st _ H).
    + destruct (node_execute_sql st) eqn:H; [| exact I].
      exact (execute_node_leaves st _ H).
    + destruct (render_node st) eqn:H; [| exact I].
      exact (render_node_leaves st _ H).
  - rewrite run_pipeline_stages. unfold three_stages.
    assert (H0 : same_location_and_tools st0 st0) by (split; reflexivity).
    destruct (schema_node st0) as [u1 | e1] eqn:H1.
    2: { cbn. split; [| exact I]. stages_keep. }
    pose proof (apply_update_frame u1 (schema_node_leaves st0 u1 H1) st0)
      as K1.
    set (st1 := write st0 u1) in *.
    destruct (node_execute_sql st1) as [u2 | e2] eqn:H2.
    2: { cbn. split; [| exact I]. stages_keep. }
    pose proof (apply_update_frame u2 (execute_node_leaves st1 u2 H2) st1)
      as K2.
    set (st2 := write st1 u2) in *.
    assert (K02 : same_location_and_tools st0 st2).
    { destruct K1, K2. split; congruence. }
    destruct (render_node st2) as [u3 | e3] eqn:H3.
    2: { cbn. split; [| exact I]. stages_keep. }
    pose proof (apply_update_frame u3 (render_node_leaves st2 u3 H3) st2)
      as K3.
    set (st3 := write st2 u3) in *.
    assert (K03 : same_location_and_tools st0 st3).
    { destruct K02, K3. split; congruence. }
    cbn. split; [stages_keep | exact K03].
Qed.

(** C3, as the code has it. When the model answers the analysis call
    with the empty string, the planner fails with [ModelOutputInvalid]
    and returns its error payload; the coordinator then writes nothing
    to the state and enters the executor with the state unchanged. *)
Theorem empty_analysis_is_contained_and_executor_entered
  (st : PipelineState) :
  receives st "" ->
  ModelOutputInvalid
    (Exn RuntimeError "LLM returned empty content for schema analysis.")
  /\ schema_try st
     = Raise (Exn RuntimeError
                "LLM returned empty content for schema analysis.")
  /\ schema_node st
     = Return [("error", UStr "node_schema_failed");
               ("details",
                 UStr "LLM returned empty content for schema analysis.")]
  /\ exists second rest,
       fst (run_pipeline st)
       = {| stage := "schema"; before := st; after := Return st |}
           :: second :: rest
       /\ stage second = "execute_sql"
       /\ before second = st.
Proof.
  intros Hrecv.
  assert (Htry : schema_try st
                 = Raise (Exn RuntimeError
                            "LLM returned empty content for schema analysis.")).
  { rewrite (planner_receives_continues st "" Hrecv). reflexivity. }
  assert (Hnode : schema_node st
                  = Return [("error", UStr "node_schema_failed");
                            ("details",
                              UStr "LLM returned empty content for schema analysis.")]).
  { unfold node_schema. rewrite Htry. reflexivity. }
  split; [left; reflexivity |]. split; [exact Htry |].
  split; [exact Hnode |].
  rewrite run_pipeline_stages. unfold three_stages. rewrite Hnode.
  cbn [apply_update fold_left write_channel String.eqb Ascii.eqb Bool.eqb].
  destruct (node_execute_sql st) as [u2 | e2].
  - destruct (render_node (write st u2)) as [u3 | e3];
      eexists; eexists; (split; [reflexivity | split; reflexivity]).
  - eexists; eexists; (split; [reflexivity | split; reflexivity]).
Qed.

End Properties.

(** ** The properties on scripted runs *)

(** The whole pipeline on the scripted collaborators: three stages, and
    the last message of the final state is the model's document. *)
Example scripted_run_reaches_the_document :
  let run :=
    @ainvoke_pipeline Reference.codec (answering plan_answer html_answer)
      analysis_prompt render_prompt overwrite init_state in
  entered run = ["schema"; "execute_sql"; "render_html"]
  /\ bind (snd run) (fun st => Return (messages st))
     = Return [AIMessage (PStr html_answer)].
Proof. split; vm_compute; reflexivity. Qed.

(** C3, as stated, fails: the model answers the analysis call with the
    empty string, the planner returns its error payload, and the
    coordinator enters the executor all the same. *)
Lemma empty_analysis_run_enters_executor :
  (forall request,
      @llm_ainvoke (answering "" html_answer) (Some 10151%Z)
        analysis_prompt request = Return "")
  /\ @node_schema Reference.codec (answering "" html_answer)
       analysis_prompt init_state
     = Return [("error", UStr "node_schema_failed");
               ("details",
                 UStr "LLM returned empty content for schema analysis.")]
  /\ entered
       (@ainvoke_pipeline Reference.codec (answering "" html_answer)
          analysis_prompt render_prompt overwrite init_state)
     = ["schema"; "execute_sql"].
Proof.
  split; [intros request; reflexivity |].
  split; vm_compute; reflexivity.
Qed.

(** The run on the question, the model silent at the analysis call. *)
Lemma empty_analysis_witness :
  @node_schema Reference.codec (answering "" html_answer)
    analysis_prompt init_state
  = Return [("error", UStr "node_schema_failed");
            ("details",
              UStr "LLM returned empty content for schema analysis.")]
  /\ exists second rest,
       fst (@ainvoke_pipeline Reference.codec (answering "" html_answer)
              analysis_prompt render_prompt overwrite init_state)
       = {| stage := "schema"; before := init_state;
            after := Return init_state |} :: second :: rest
       /\ stage second = "execute_sql"
       /\ before second = init_state.
Proof.
  assert (Hrecv : @planner_receives Reference.codec
                    (answering "" html_answer) analysis_prompt
                    init_state "").
  { unfold planner_receives. do 4 eexists.
    repeat split; vm_compute; reflexivity. }
  destruct (@empty_analysis_is_contained_and_executor_entered
              Reference.codec (answering "" html_answer)
              analysis_prompt render_prompt overwrite init_state Hrecv)
    as (_ & _ & Hnode & Hrun).
  split; [exact Hnode | exact Hrun].
Defined.

(** C4, as stated, fails: the last message decodes to an object that has
    no [key_metrics] list, and the executor does not fail; it returns an
    empty list of records. *)
Lemma empty_object_is_an_empty_plan :
  @py_json_loads Reference.codec (PStr "{}") = Return (PDict [])
  /\ lookup "key_metrics" [] = None
  /\ @node_execute_sql Reference.codec empty_object_state
     = Return [("messages", UMessages [AIMessage (PList [])])].
Proof. repeat split; vm_compute; reflexivity. Qed.

(** The executor on a last message that is the question, not JSON. *)
Lemma executor_decoding_witness :
  exists why,
    @node_execute_sql Reference.codec init_state
    = Raise (Exn ValueError
               ("Failed to parse AIMessage content as JSON: " ++ why)).
Proof.
  destruct (@executor_fails_when_decoding_fails Reference.codec init_state
              (rows_for price_query price_rows)
              (HumanMessage (PStr question)) eq_refl eq_refl)
    as (Hfail & _ & _).
  exists "Expecting value".
  exact (proj2 (Hfail (Exn JSONDecodeError "Expecting value") eq_refl)).
Defined.

(** C5, as stated, fails: the model answers the rendering call with empty
    content, and the renderer returns a message with that content. *)
Lemma empty_markup_is_returned :
  (forall request,
      @llm_ainvoke (answering plan_answer "") None render_prompt request
      = Return "")
  /\ @node_render_html Reference.codec (answering plan_answer "")
       render_prompt records_state
     = Return [("messages", UMessages [AIMessage (PStr "")])].
Proof. split; [intros request; reflexivity | vm_compute; reflexivity]. Qed.

(** The renderer on one record, the model answering with a document. *)
Lemma renderer_witness :
  @node_render_html Reference.codec (answering plan_answer html_answer)
    render_prompt records_state
  = Return [("messages", UMessages [AIMessage (PStr html_answer)])].
Proof.
  apply (@renderer_returns_model_content Reference.codec
           (answering plan_answer html_answer) render_prompt records_state
           (AIMessage records)
           (text_of (PDict [("metrics", records)])) html_answer);
    reflexivity.
Defined.

(** C6, as stated, fails: the only column has a name, so the list is not
    empty and no entry lacks both a name and a type; the planner fails
    all the same. *)
Lemma named_untyped_column_is_rejected :
  untyped_column <> []
  /\ (forall x,
        In x (firstn 2 untyped_column) ->
        exists d n, x = PDict d /\ lookup "name" d = Some n)
  /\ @node_schema_try Reference.codec (answering plan_answer html_answer)
       analysis_prompt untyped_column_state
     = Raise (Exn ValueError
                "Schema items missing required keys after normalization").
Proof.
  split; [discriminate |]. split; [| vm_compute; reflexivity].
  intros x [<- | []]. exists [("name", PStr "Age")], (PStr "Age").
  split; reflexivity.
Qed.

(** The planner on two columns that have a name and a type each. *)
Lemma schema_check_witness :
  check_schema
    [PDict [("name", PStr "Age"); ("dtype", PStr "int")];
     PDict [("name", PStr "Base Price (Cr)"); ("dtype", PStr "float")]]
  = Return tt.
Proof.
  destruct (@planner_checks_first_two_columns Reference.codec
              (answering plan_answer html_answer) analysis_prompt
              init_state (scripted_tool "get_schema" (Return schema_answer))
              schema_answer
              [PDict [("name", PStr "Age"); ("dtype", PStr "int")];
               PDict [("name", PStr "Base Price (Cr)");
                      ("dtype", PStr "float")]]
              eq_refl eq_refl eq_refl)
    as (_ & _ & Hpass).
  apply Hpass; [discriminate |].
  intros x [<- | [<- | []]]; do 3 eexists; repeat split; reflexivity.
Defined.

(** C7, as stated, fails: the model answers [null], which is not empty
    and is JSON; the planner neither produces a spec nor fails with
    [ModelOutputInvalid] or [ModelOutputIncomplete]: the key test raises
    a [TypeError]. *)
Lemma null_answer_is_neither_judged_nor_accepted :
  Reference.loads "null" = Return PNone
  /\ @node_schema_try Reference.codec (answering "null" html_answer)
       analysis_prompt init_state
     = Raise (Exn TypeError "argument of type 'NoneType' is not iterable")
  /\ ~ ModelOutputInvalid
         (Exn TypeError "argument of type 'NoneType' is not iterable")
  /\ ~ ModelOutputIncomplete
         (Exn TypeError "argument of type 'NoneType' is not iterable").
Proof.
  split; [reflexivity |]. split; [vm_compute; reflexivity |]. split.
  - intros [H | [why H]]; discriminate H.
  - intros [k H]. discriminate H.
Qed.

(** On the scripted tools the planner reaches the model. *)
Lemma planner_receives_plan_answer :
  @planner_receives Reference.codec (answering plan_answer html_answer)
    analysis_prompt init_state plan_answer.
Proof.
  unfold planner_receives. do 4 eexists.
  repeat split; vm_compute; reflexivity.
Defined.

(** The planner on an answer with both keys and a domain. *)
Lemma model_answer_witness :
  @node_schema_try Reference.codec (answering plan_answer html_answer)
    analysis_prompt init_state
  = Return [("messages", UMessages [AIMessage (PStr handoff_text)])].
Proof.
  destruct (@planner_judges_model_answer Reference.codec
              (answering plan_answer html_answer) analysis_prompt
              init_state plan_answer planner_receives_plan_answer)
    as (_ & _ & _ & _ & Hok).
  eapply Hok; [discriminate | vm_compute; reflexivity | reflexivity
              | reflexivity | vm_compute; reflexivity].
Defined.

(** The same run: what is handed off has the two fields and no domain. *)
Lemma minimal_spec_witness :
  exists analysis d key_metrics dashboard_components text,
    @planner_receives Reference.codec (answering plan_answer html_answer)
      analysis_prompt init_state analysis
    /\ Reference.loads analysis = Return (PDict d)
    /\ lookup "key_metrics" d = Some key_metrics
    /\ lookup "dashboard_components" d = Some dashboard_components
    /\ Reference.dumps false
         (PDict [("key_metrics", key_metrics);
                 ("dashboard_components", dashboard_components)])
       = Return text
    /\ [("messages", UMessages [AIMessage (PStr handoff_text)])]
       = [("messages", UMessages [AIMessage (PStr text)])].
Proof.
  apply (@planner_hands_off_minimal_spec Reference.codec
           (answering plan_answer html_answer) analysis_prompt init_state
           [("messages", UMessages [AIMessage (PStr handoff_text)])]).
  vm_compute. reflexivity.
Defined.

(** The executor on two plans, the tool having rows for the first only. *)
Lemma executor_records_witness :
  exists records,
    @node_execute_sql Reference.codec handoff_state
    = Return [("messages", UMessages [AIMessage (PList records)])]
    /\ List.length records = 2
    /\ Forall2
         (materialises handoff_state (rows_for price_query price_rows))
         handoff_plans records.
Proof.
  apply (@executor_materialises_every_plan Reference.codec handoff_state
           (rows_for price_query price_rows)
           (AIMessage (PStr handoff_text)) handoff_payload handoff_plans).
  - reflexivity.
  - reflexivity.
  - vm_compute. reflexivity.
  - reflexivity.
  - repeat constructor; do 6 eexists; repeat split; reflexivity.
Defined.

(** Both nodes on a state whose only tool lists files. *)
Lemma missing_tool_witness :
  @node_execute_sql Reference.codec listing_only_state
  = Raise (Exn RuntimeError "coroutine raised StopIteration")
  /\ (forall u, @node_execute_sql Reference.codec listing_only_state
                <> Return u)
  /\ @node_schema Reference.codec (answering plan_answer html_answer)
       analysis_prompt listing_only_state
     = Return [("error", UStr "node_schema_failed");
               ("details", UStr "get_schema tool not found")].
Proof.
  apply (@missing_tool_raises_or_is_contained Reference.codec
           (answering plan_answer html_answer) analysis_prompt
           listing_only_state listing_only_state).
  - intros t [<- | []]. discriminate.
  - intros t [<- | []]. discriminate.
Defined.

(** ** Further properties of the executor *)

Section ExecutorProperties.

Context `{Json : JsonCodec}.

Lemma execute_metrics_first_failure st exec_tool pre m post e :
  Forall (answered_plan st exec_tool) pre ->
  execute_metric st exec_tool m = Raise e ->
  forall results,
    execute_metrics st exec_tool (pre ++ m :: post) results = Raise e.
Proof.
  intros Hpre Hm. induction Hpre as [| p pre Hp _ IH]; intros results.
  - cbn [app execute_metrics]. rewrite Hm. reflexivity.
  - destruct (execute_metric_answered st exec_tool p Hp)
      as (record & Hrun & _).
    cbn [app execute_metrics]. rewrite Hrun. cbn [bind]. apply IH.
Qed.

Lemma executor_on_plans st exec_tool last payload plans :
  find_tool "execute_polars_sql" (tool st) = Some exec_tool ->
  last_message (messages st) = Return last ->
  py_json_loads (content last) = Return (PDict payload) ->
  lookup "key_metrics" payload = Some (PList plans) ->
  node_execute_sql st
  = (results <- execute_metrics st exec_tool plans [] ;;
     Return [("messages", UMessages [AIMessage (PList results)])]).
Proof.
  intros Hfind Hlast Hload Hkey.
  rewrite (executor_after_decoding st exec_tool last _ Hfind Hlast Hload).
  unfold execute_plan, py_get. rewrite Hkey. reflexivity.
Qed.

(** X1. A query the tool fails on ends the executor with the tool's
    exception, whatever the plans before it produced: no record is
    returned, and the plans after it are not looked at. *)
Theorem executor_stops_at_first_tool_failure
  (st : PipelineState) (exec_tool : BaseTool) (last : message)
  (payload : list (string * pyval)) (pre post : list pyval)
  (d : list (string * pyval)) (sql : pyval) (e : exn) :
  find_tool "execute_polars_sql" (tool st) = Some exec_tool ->
  last_message (messages st) = Return last ->
  py_json_loads (content last) = Return (PDict payload) ->
  lookup "key_metrics" payload = Some (PList (pre ++ PDict d :: post)) ->
  Forall (answered_plan st exec_tool) pre ->
  lookup "sql" d = Some sql ->
  ainvoke exec_tool (query_arguments st sql) = Raise e ->
  node_execute_sql st = Raise e.
Proof.
  intros Hfind Hlast Hload Hkey Hpre Hsql Htool.
  rewrite (executor_on_plans st exec_tool last payload _
             Hfind Hlast Hload Hkey).
  rewrite (execute_metrics_first_failure st exec_tool pre (PDict d) post e
             Hpre); [reflexivity |].
  unfold execute_metric, py_getitem. rewrite Hsql. cbn [bind].
  rewrite Htool. reflexivity.
Qed.

(** X2. A plan without a query raises [KeyError] on ['sql'] before the
    tool is asked; a plan whose query the tool answers and that lacks a
    descriptive field raises [KeyError] on the first one missing, in the
    order metric, description, visualization_type. *)
Theorem executor_raises_key_error_on_incomplete_plan
  (st : PipelineState) (exec_tool : BaseTool) (last : message)
  (payload : list (string * pyval)) (pre post : list pyval)
  (d : list (string * pyval)) :
  find_tool "execute_polars_sql" (tool st) = Some exec_tool ->
  last_message (messages st) = Return last ->
  py_json_loads (content last) = Return (PDict payload) ->
  lookup "key_metrics" payload = Some (PList (pre ++ PDict d :: post)) ->
  Forall (answered_plan st exec_tool) pre ->
  (lookup "sql" d = None ->
   node_execute_sql st = Raise (Exn KeyError "'sql'"))
  /\ (forall sql data,
        lookup "sql" d = Some sql ->
        ainvoke exec_tool (query_arguments st sql) = Return data ->
        (lookup "metric" d = None ->
         node_execute_sql st = Raise (Exn KeyError "'metric'"))
        /\ (forall metric,
              lookup "metric" d = Some metric ->
              lookup "description" d = None ->
              node_execute_sql st = Raise (Exn KeyError "'description'"))
        /\ (forall metric description,
              lookup "metric" d = Some metric ->
              lookup "description" d = Some description ->
              lookup "visualization_type" d = None ->
              node_execute_sql st
              = Raise (Exn KeyError "'visualization_type'"))).
Proof.
  intros Hfind Hlast Hload Hkey Hpre.
  rewrite (executor_on_plans st exec_tool last payload _
             Hfind Hlast Hload Hkey).
  assert (Hfail : forall e,
             execute_metric st exec_tool (PDict d) = Raise e ->
             (results <- execute_metrics st exec_tool
                           (pre ++ PDict d :: post) [] ;;
              Return [("messages", UMessages [AIMessage (PList results)])])
             = Raise e).
  { intros e He.
    rewrite (execute_metrics_first_failure st exec_tool pre (PDict d) post e
               Hpre He).
    reflexivity. }
  split.
  - intros Hsql. apply Hfail.
    unfold execute_metric, py_getitem. rewrite Hsql. reflexivity.
  - intros sql data Hsql Htool. split; [| split].
    + intros Hmetric. apply Hfail.
      unfold execute_metric, py_getitem. rewrite Hsql. cbn [bind].
      rewrite Htool. cbn [bind]. rewrite Hmetric. reflexivity.
    + intros metric Hmetric Hdesc. apply Hfail.
      unfold execute_metric, py_getitem. rewrite Hsql. cbn [bind].
      rewrite Htool. cbn [bind]. rewrite Hmetric. cbn [bind].
      rewrite Hdesc. reflexivity.
    + intros metric description Hmetric Hdesc Hvt. apply Hfail.
      unfold execute_metric, py_getitem. rewrite Hsql. cbn [bind].
      rewrite Htool. cbn [bind]. rewrite Hmetric. cbn [bind].
      rewrite Hdesc. cbn [bind]. rewrite Hvt. reflexivity.
Qed.

End ExecutorProperties.

(** The hand-off with two plans, the tool knowing the query of the first
    only: the run ends with the tool's failure on the second. *)
Lemma executor_tool_failure_witness :
  @node_execute_sql Reference.codec strict_handoff_state
  = Raise column_not_found.
Proof.
  apply (@executor_stops_at_first_tool_failure Reference.codec
           strict_handoff_state
           (rows_or_failure price_query price_rows column_not_found)
           (AIMessage (PStr handoff_text)) handoff_payload
           [PDict [("metric", PStr "Players by age");
                   ("description", PStr "How many players of each age");
                   ("visualization_type", PStr "bar_chart");
                   ("visualization_rationale", PStr "categories");
                   ("sql", PStr price_query)]]
           []
           [("metric", PStr "Veterans");
            ("description", PStr "Players over 60");
            ("visualization_type", PStr "table");
            ("visualization_rationale", PStr "rows");
            ("sql", PStr "SELECT * FROM self WHERE Age > 60")]
           (PStr "SELECT * FROM self WHERE Age > 60") column_not_found).
  - reflexivity.
  - reflexivity.
  - vm_compute. reflexivity.
  - reflexivity.
  - repeat constructor; do 6 eexists; repeat split; reflexivity.
  - reflexivity.
  - reflexivity.
Defined.

(** A plan with a query and no title: the query is answered, then the
    title is missed. *)
Lemma executor_incomplete_plan_witness :
  @node_execute_sql Reference.codec bare_plan_state
  = Raise (Exn KeyError "'metric'").
Proof.
  destruct (@executor_raises_key_error_on_incomplete_plan Reference.codec
              bare_plan_state (rows_for price_query price_rows)
              (AIMessage
                 (PStr (text_of (PDict [("key_metrics", PList [bare_plan])]))))
              [("key_metrics", PList [bare_plan])] [] []
              [("sql", PStr price_query)])
    as [_ Hrest].
  - reflexivity.
  - reflexivity.
  - vm_compute. reflexivity.
  - reflexivity.
  - constructor.
  - destruct (Hrest (PStr price_query) price_rows eq_refl eq_refl)
      as [Hmetric _].
    apply Hmetric. reflexivity.
Defined.

Section ExecutorShapes.

Context `{Json : JsonCodec}.

(** X3. When the content of the last message decodes to a value that is
    no object, the executor raises [AttributeError], not the
    [ValueError] of a content that does not decode. *)
Theorem executor_raises_attribute_error_on_non_object
  (st : PipelineState) (exec_tool : BaseTool) (last : message)
  (payload : pyval) :
  find_tool "execute_polars_sql" (tool st) = Some exec_tool ->
  last_message (messages st) = Return last ->
  py_json_loads (content last) = Return payload ->
  not_an_object payload ->
  exists why,
    node_execute_sql st = Raise (Exn AttributeError why)
    /\ ~ MalformedPlan (Exn AttributeError why).
Proof.
  intros Hfind Hlast Hload Hshape.
  rewrite (executor_after_decoding st exec_tool last _ Hfind Hlast Hload).
  unfold execute_plan.
  destruct payload; try contradiction;
    (eexists; split; [reflexivity | intros [why H]; discriminate H]).
Qed.

(** X4. When [key_metrics] is not a list: [null], a truth value or a
    number cannot be walked, and the executor raises [TypeError]; empty
    text or an empty object is an empty plan, and the executor returns no
    record; text or an object with something in it is walked, and the
    first item, being text, raises [TypeError] when its query is read. *)
Theorem executor_on_key_metrics_that_is_no_list
  (st : PipelineState) (exec_tool : BaseTool) (last : message)
  (payload : list (string * pyval)) (key_metrics : pyval) :
  find_tool "execute_polars_sql" (tool st) = Some exec_tool ->
  last_message (messages st) = Return last ->
  py_json_loads (content last) = Return (PDict payload) ->
  lookup "key_metrics" payload = Some key_metrics ->
  (not_iterable key_metrics ->
   exists why, node_execute_sql st = Raise (Exn TypeError why))
  /\ (empty_container key_metrics ->
      node_execute_sql st
      = Return [("messages", UMessages [AIMessage (PList [])])])
  /\ (walks_to_text key_metrics ->
      exists why, node_execute_sql st = Raise (Exn TypeError why)).
Proof.
  intros Hfind Hlast Hload Hkey.
  rewrite (executor_after_decoding st exec_tool last _ Hfind Hlast Hload).
  unfold execute_plan, py_get. rewrite Hkey. cbn [bind].
  split; [| split].
  - intros Hno. destruct key_metrics; try contradiction;
      eexists; reflexivity.
  - intros [-> | [-> | ->]]; reflexivity.
  - intros [(c & s & ->) | ([k v] & entries & ->)]; eexists; reflexivity.
Qed.

End ExecutorShapes.

(** The content [[1, 2]] decodes to a list. *)
Lemma executor_non_object_witness :
  exists why,
    @node_execute_sql Reference.codec array_state
    = Raise (Exn AttributeError why)
    /\ ~ MalformedPlan (Exn AttributeError why).
Proof.
  apply (@executor_raises_attribute_error_on_non_object Reference.codec
           array_state (rows_for price_query price_rows)
           (AIMessage (PStr "[1, 2]")) (PList [PInt 1; PInt 2]));
    reflexivity || exact I.
Defined.

(** The plans are [null], and the plans are a word. *)
Lemma executor_key_metrics_witness :
  (exists why,
      @node_execute_sql Reference.codec null_metrics_state
      = Raise (Exn TypeError why))
  /\ (exists why,
        @node_execute_sql Reference.codec text_metrics_state
        = Raise (Exn TypeError why)).
Proof.
  split.
  - destruct (@executor_on_key_metrics_that_is_no_list Reference.codec
                null_metrics_state (rows_for price_query price_rows)
                (AIMessage
                   (PStr (text_of (PDict [("key_metrics", PNone)]))))
                [("key_metrics", PNone)] PNone
                eq_refl eq_refl eq_refl eq_refl) as (Hno & _ & _).
    apply Hno. exact I.
  - destruct (@executor_on_key_metrics_that_is_no_list Reference.codec
                text_metrics_state (rows_for price_query price_rows)
                (AIMessage
                   (PStr (text_of (PDict [("key_metrics", PStr "none")]))))
                [("key_metrics", PStr "none")] (PStr "none")
                eq_refl eq_refl eq_refl eq_refl) as (_ & _ & Hwalk).
    apply Hwalk. left. do 2 eexists. reflexivity.
Defined.

(** ** Further properties of the planner and the renderer *)

Lemma last_message_raises (msgs : list message) (e : exn) :
  last_message msgs = Raise e ->
  msgs = [] /\ e = Exn IndexError "list index out of range".
Proof.
  induction msgs as [| m msgs IH]; cbn [last_message].
  - intros H. injection H as <-. split; reflexivity.
  - destruct msgs as [| m' msgs']; [discriminate |].
    intros H. destruct (IH H) as [Hnil _]. discriminate Hnil.
Qed.

Section PlannerProperties.

Context `{Json : JsonCodec} `{LLM : LanguageModel}.
Variable INSTRUCTIONS_CSV_ANALYSIS_AND_SCHEMA : string.
Variable INSTRUCTIONS_RENDER_DASHBOARD_FROM_DATA : string.

#[local] Abbreviation schema_node :=
  (node_schema INSTRUCTIONS_CSV_ANALYSIS_AND_SCHEMA).
#[local] Abbreviation schema_try :=
  (node_schema_try INSTRUCTIONS_CSV_ANALYSIS_AND_SCHEMA).
#[local] Abbreviation render_node :=
  (node_render_html INSTRUCTIONS_RENDER_DASHBOARD_FROM_DATA).

Lemma mapM_normalize_item (items l : list pyval) :
  mapM normalize_item items = Return l <-> Forall2 normalized items l.
Proof.
  revert l. induction items as [| item items IH]; intros l; cbn [mapM].
  - split.
    + intros H. injection H as <-. constructor.
    + intros H. inversion H. reflexivity.
  - split.
    + intros H. bind_step H x Hx. bind_step H xs Hxs.
      injection H as <-. constructor.
      * destruct item; cbn [normalize_item] in Hx;
          try (injection Hx as <-; reflexivity).
        exact Hx.
      * apply IH. exact Hxs.
    + intros H. inversion H as [| item' x items' xs Hx Hxs]; subst.
      apply IH in Hxs. rewrite Hxs.
      assert (Hitem : normalize_item item = Return x).
      { destruct item; cbn [normalize_item normalized] in *;
          rewrite Hx; reflexivity. }
      rewrite Hitem. reflexivity.
Qed.

(** X5. On a list, normalization succeeds exactly with the list, of the
    same length and in the same order, in which each text item is
    replaced by what it decodes to and every other item is kept. *)
Theorem schema_normalization_decodes_text_items (items l : list pyval) :
  normalize_schema (PList items) = Return l <-> Forall2 normalized items l.
Proof.
  rewrite <- mapM_normalize_item.
  unfold normalize_schema, try_except. cbn [py_iter bind].
  destruct (mapM normalize_item items) as [l' | e]; split;
    intros H; try exact H; discriminate H.
Qed.

Lemma planner_after_tool st get_schema wrapped :
  find_tool "get_schema" (tool st) = Some get_schema ->
  ainvoke get_schema
    (PDict [("file_location", PStr (csv_file_path st));
            ("file_type", PStr "csv")]) = Return wrapped ->
  schema_try st
  = (schema_list <- normalize_schema wrapped ;;
     check_schema schema_list ;;;
     request <- analysis_request st schema_list ;;
     analysis <- llm_ainvoke (Some 10151%Z)
                   INSTRUCTIONS_CSV_ANALYSIS_AND_SCHEMA request ;;
     spec_message analysis).
Proof.
  intros Hfind Htool. unfold node_schema_try. rewrite Hfind, Htool.
  reflexivity.
Qed.

(** X6. When the schema tool answers with empty text, an empty list or
    an empty object, the planner returns the error payload of an empty
    schema; when it answers with [None], a truth value or a number, the
    planner returns the error payload of schema items that do not
    parse. *)
Theorem planner_on_degenerate_schema_answer
  (st : PipelineState) (get_schema : BaseTool) (wrapped : pyval) :
  find_tool "get_schema" (tool st) = Some get_schema ->
  ainvoke get_schema
    (PDict [("file_location", PStr (csv_file_path st));
            ("file_type", PStr "csv")]) = Return wrapped ->
  (empty_container wrapped ->
   schema_node st
   = Return [("error", UStr "node_schema_failed");
             ("details", UStr "Empty schema returned")])
  /\ (not_iterable wrapped ->
      exists why,
        schema_node st
        = Return [("error", UStr "node_schema_failed");
                  ("details",
                    UStr ("Failed to parse schema items: " ++ why))]).
Proof.
  intros Hfind Htool. unfold node_schema.
  rewrite (planner_after_tool st get_schema wrapped Hfind Htool).
  split.
  - intros [-> | [-> | ->]]; reflexivity.
  - intros Hno. destruct wrapped; try contradiction;
      eexists; reflexivity.
Qed.

(** X7. When the schema tool answers with a text instead of a list, the
    planner takes each character of the text for an item: if the first
    character alone does not decode, the planner returns the error
    payload of schema items that do not parse. *)
Theorem planner_walks_characters_of_text_answer
  (st : PipelineState) (get_schema : BaseTool) (c : ascii) (rest : string)
  (e : exn) :
  find_tool "get_schema" (tool st) = Some get_schema ->
  ainvoke get_schema
    (PDict [("file_location", PStr (csv_file_path st));
            ("file_type", PStr "csv")]) = Return (PStr (String c rest)) ->
  json_loads (String c EmptyString) = Raise e ->
  schema_node st
  = Return [("error", UStr "node_schema_failed");
            ("details",
              UStr ("Failed to parse schema items: " ++ exn_str e))].
Proof.
  intros Hfind Htool Hchar. unfold node_schema.
  rewrite (planner_after_tool st get_schema _ Hfind Htool).
  unfold normalize_schema.
  cbn [py_iter chars bind mapM normalize_item].
  rewrite Hchar. reflexivity.
Qed.

(** X8. An exception of the schema tool, and an exception of the model
    at the analysis call, do not leave the planner: it returns the error
    payload with the text of that exception. *)
Theorem planner_contains_tool_and_model_failures
  (st : PipelineState) (get_schema : BaseTool) :
  find_tool "get_schema" (tool st) = Some get_schema ->
  (forall e,
      ainvoke get_schema
        (PDict [("file_location", PStr (csv_file_path st));
                ("file_type", PStr "csv")]) = Raise e ->
      schema_node st
      = Return [("error", UStr "node_schema_failed");
                ("details", UStr (exn_str e))])
  /\ (forall wrapped schema_list request e,
        ainvoke get_schema
          (PDict [("file_location", PStr (csv_file_path st));
                  ("file_type", PStr "csv")]) = Return wrapped ->
        normalize_schema wrapped = Return schema_list ->
        check_schema schema_list = Return tt ->
        analysis_request st schema_list = Return request ->
        llm_ainvoke (Some 10151%Z) INSTRUCTIONS_CSV_ANALYSIS_AND_SCHEMA
          request = Raise e ->
        schema_node st
        = Return [("error", UStr "node_schema_failed");
                  ("details", UStr (exn_str e))]).
Proof.
  intros Hfind. split.
  - intros e Htool. unfold node_schema, node_schema_try.
    rewrite Hfind, Htool. reflexivity.
  - intros wrapped schema_list request e Htool Hnorm Hcheck Hreq Hllm.
    unfold node_schema.
    rewrite (planner_after_tool st get_schema wrapped Hfind Htool).
    rewrite Hnorm. cbn [bind]. rewrite Hcheck. cbn [bind].
    rewrite Hreq. cbn [bind]. rewrite Hllm. reflexivity.
Qed.

(** X9. On a state without any message, the executor and the renderer
    raise [IndexError]; the planner, once the schema has passed its
    check, returns the error payload of that [IndexError]. *)
Theorem nodes_on_empty_message_list (st : PipelineState) :
  messages st = [] ->
  (forall exec_tool,
      find_tool "execute_polars_sql" (tool st) = Some exec_tool ->
      node_execute_sql st = Raise (Exn IndexError "list index out of range"))
  /\ render_node st = Raise (Exn IndexError "list index out of range")
  /\ (forall get_schema wrapped schema_list,
        find_tool "get_schema" (tool st) = Some get_schema ->
        ainvoke get_schema
          (PDict [("file_location", PStr (csv_file_path st));
                  ("file_type", PStr "csv")]) = Return wrapped ->
        normalize_schema wrapped = Return schema_list ->
        check_schema schema_list = Return tt ->
        schema_node st
        = Return [("error", UStr "node_schema_failed");
                  ("details", UStr "list index out of range")]).
Proof.
  intros Hnil. split; [| split].
  - intros exec_tool Hfind. unfold node_execute_sql, decode_plan.
    rewrite Hfind, Hnil. reflexivity.
  - unfold node_render_html. rewrite Hnil. reflexivity.
  - intros get_schema wrapped schema_list Hfind Htool Hnorm Hcheck.
    unfold node_schema.
    rewrite (planner_after_tool st get_schema wrapped Hfind Htool).
    rewrite Hnorm. cbn [bind]. rewrite Hcheck. cbn [bind].
    unfold analysis_request. rewrite Hnil. reflexivity.
Qed.

(** X10. The renderer has no failure of its own but the missing last
    message: whenever it raises, the message list is empty, or the
    exception is the one [json.dumps] raised on the records, or the one
    the model raised on the request. *)
Theorem renderer_fails_only_with_its_collaborators
  (st : PipelineState) (e : exn) :
  render_node st = Raise e ->
  (messages st = [] /\ e = Exn IndexError "list index out of range")
  \/ (exists last,
        last_message (messages st) = Return last
        /\ json_dumps true (PDict [("metrics", content last)]) = Raise e)
  \/ (exists last request,
        last_message (messages st) = Return last
        /\ json_dumps true (PDict [("metrics", content last)])
           = Return request
        /\ llm_ainvoke None INSTRUCTIONS_RENDER_DASHBOARD_FROM_DATA request
           = Raise e).
Proof.
  unfold node_render_html. intros H.
  destruct (last_message (messages st)) as [last | e0] eqn:Hlast.
  - cbn [bind] in H.
    destruct (json_dumps true (PDict [("metrics", content last)]))
      as [request | e1] eqn:Hdump.
    + cbn [bind] in H.
      destruct (llm_ainvoke None INSTRUCTIONS_RENDER_DASHBOARD_FROM_DATA
                  request) as [html | e2] eqn:Hllm.
      * discriminate H.
      * cbn [bind] in H. injection H as <-.
        right. right. exists last, request. repeat split; assumption.
    + cbn [bind] in H. injection H as <-.
      right. left. exists last. split; [reflexivity | exact Hdump].
  - cbn [bind] in H. injection H as <-.
    left. exact (last_message_raises _ _ Hlast).
Qed.

End PlannerProperties.

(** The schema tool answers [None]. *)
Lemma degenerate_schema_witness :
  exists why,
    @node_schema Reference.codec (answering plan_answer html_answer)
      analysis_prompt null_schema_state
    = Return [("error", UStr "node_schema_failed");
              ("details", UStr ("Failed to parse schema items: " ++ why))].
Proof.
  destruct (@planner_on_degenerate_schema_answer Reference.codec
              (answering plan_answer html_answer) analysis_prompt
              null_schema_state (scripted_tool "get_schema" (Return PNone))
              PNone eq_refl eq_refl) as [_ Hno].
  apply Hno. exact I.
Defined.

(** The schema tool answers with the text of one column: the brace that
    opens it is no JSON by itself. *)
Lemma text_answer_witness :
  exists why,
    @node_schema Reference.codec (answering plan_answer html_answer)
      analysis_prompt text_schema_state
    = Return [("error", UStr "node_schema_failed");
              ("details", UStr ("Failed to parse schema items: " ++ why))].
Proof.
  eexists.
  eapply (@planner_walks_characters_of_text_answer Reference.codec
            (answering plan_answer html_answer) analysis_prompt
            text_schema_state).
  - reflexivity.
  - vm_compute. reflexivity.
  - vm_compute. reflexivity.
Defined.

(** The schema tool fails; the model fails at the analysis call. *)
Lemma contained_failures_witness :
  @node_schema Reference.codec (answering plan_answer html_answer)
    analysis_prompt failing_schema_state
  = Return [("error", UStr "node_schema_failed");
            ("details", UStr "file not found")]
  /\ @node_schema Reference.codec failing_analyst analysis_prompt init_state
     = Return [("error", UStr "node_schema_failed");
               ("details", UStr "rate limit reached")].
Proof.
  split.
  - destruct (@planner_contains_tool_and_model_failures Reference.codec
                (answering plan_answer html_answer) analysis_prompt
                failing_schema_state
                (scripted_tool "get_schema" (Raise file_not_found)) eq_refl)
      as [Htool _].
    exact (Htool file_not_found eq_refl).
  - destruct (@planner_contains_tool_and_model_failures Reference.codec
                failing_analyst analysis_prompt init_state
                (scripted_tool "get_schema" (Return schema_answer)) eq_refl)
      as [_ Hllm].
    eapply (Hllm _ _ _ rate_limited);
      solve [reflexivity | vm_compute; reflexivity].
Defined.

(** The three nodes on the state without messages. *)
Lemma empty_message_list_witness :
  @node_execute_sql Reference.codec silent_state
  = Raise (Exn IndexError "list index out of range")
  /\ @node_render_html Reference.codec (answering plan_answer html_answer)
       render_prompt silent_state
     = Raise (Exn IndexError "list index out of range")
  /\ @node_schema Reference.codec (answering plan_answer html_answer)
       analysis_prompt silent_state
     = Return [("error", UStr "node_schema_failed");
               ("details", UStr "list index out of range")].
Proof.
  destruct (@nodes_on_empty_message_list Reference.codec
              (answering plan_answer html_answer) analysis_prompt
              render_prompt silent_state eq_refl)
    as (Hexec & Hrender & Hschema).
  split; [| split].
  - apply (Hexec (rows_for price_query price_rows)). reflexivity.
  - exact Hrender.
  - eapply Hschema; solve [reflexivity | vm_compute; reflexivity].
Defined.

(** The model fails at the rendering call. *)
Lemma renderer_failure_witness :
  exists last request,
    last_message (messages records_state) = Return last
    /\ Reference.dumps true (PDict [("metrics", content last)])
       = Return request
    /\ @llm_ainvoke failing_renderer None render_prompt request
       = Raise rate_limited.
Proof.
  destruct (@renderer_fails_only_with_its_collaborators Reference.codec
              failing_renderer render_prompt records_state rate_limited)
    as [[Hnil _] | [(last & Hlast & Hdump) | Hllm]].
  - vm_compute. reflexivity.
  - discriminate Hnil.
  - exfalso. injection Hlast as <-. vm_compute in Hdump.
    discriminate Hdump.
  - exact Hllm.
Defined.

(** ** Further properties of the graph *)

Section CoordinatorProperties.

Context `{Json : JsonCodec} `{LLM : LanguageModel}.
Variable INSTRUCTIONS_CSV_ANALYSIS_AND_SCHEMA : string.
Variable INSTRUCTIONS_RENDER_DASHBOARD_FROM_DATA : string.
Variable messages_reducer : list message -> list message -> list message.

#[local] Abbreviation schema_node :=
  (node_schema INSTRUCTIONS_CSV_ANALYSIS_AND_SCHEMA).
#[local] Abbreviation schema_try :=
  (node_schema_try INSTRUCTIONS_CSV_ANALYSIS_AND_SCHEMA).
#[local] Abbreviation render_node :=
  (node_render_html INSTRUCTIONS_RENDER_DASHBOARD_FROM_DATA).
#[local] Abbreviation run_pipeline :=
  (ainvoke_pipeline INSTRUCTIONS_CSV_ANALYSIS_AND_SCHEMA
     INSTRUCTIONS_RENDER_DASHBOARD_FROM_DATA messages_reducer).
#[local] Abbreviation write := (apply_update messages_reducer).
#[local] Abbreviation stages :=
  (three_stages INSTRUCTIONS_CSV_ANALYSIS_AND_SCHEMA
     INSTRUCTIONS_RENDER_DASHBOARD_FROM_DATA messages_reducer).
#[local] Abbreviation run_stages :=
  (run_pipeline_stages INSTRUCTIONS_CSV_ANALYSIS_AND_SCHEMA
     INSTRUCTIONS_RENDER_DASHBOARD_FROM_DATA messages_reducer).

Lemma schema_node_returns (st : PipelineState) :
  (exists text,
      schema_node st
      = Return [("messages", UMessages [AIMessage (PStr text)])])
  \/ (exists e,
        schema_try st = Raise e /\ schema_node st = Return (error_payload e)).
Proof.
  unfold node_schema.
  destruct (schema_try st) as [u | e] eqn:Htry.
  - left.
    destruct (schema_try_success _ st u Htry) as (analysis & _ & Hmsg).
    destruct (spec_message_shape _ _ Hmsg) as [text ->].
    exists text. reflexivity.
  - right. exists e. split; reflexivity.
Qed.


Lemma render_node_returns (st : PipelineState) (u : state_update) :
  render_node st = Return u ->
  exists html, u = [("messages", UMessages [AIMessage (PStr html)])].
Proof.
  unfold node_render_html. intros H.
  bind_step H final Hlast. bind_step H request Hdump.
  bind_step H html Hllm. injection H as <-.
  exists html. reflexivity.
Qed.

Lemma write_error_payload (st : PipelineState) (e : exn) :
  write st (error_payload e) = st.
Proof. reflexivity. Qed.

Lemma write_messages (st : PipelineState) (ms : list message) :
  write st [("messages", UMessages ms)]
  = {| messages := messages_reducer (messages st) ms;
       csv_file_path := csv_file_path st;
       tool := tool st |}.
Proof. reflexivity. Qed.

(** X11. Every run enters the planner and then the executor, whatever
    the planner met; it goes on to the renderer exactly when the executor
    returned; and a run that fails does so with the exception of its
    last stage, which is never the planner. *)
Theorem run_always_reaches_the_executor (st0 : PipelineState) :
  (entered (run_pipeline st0) = ["schema"; "execute_sql"]
   \/ entered (run_pipeline st0) = ["schema"; "execute_sql"; "render_html"])
  /\ (forall stf,
        snd (run_pipeline st0) = Return stf ->
        entered (run_pipeline st0) = ["schema"; "execute_sql"; "render_html"])
  /\ (forall e,
        snd (run_pipeline st0) = Raise e ->
        exists earlier failed,
          fst (run_pipeline st0) = earlier ++ [failed]
          /\ after failed = Raise e
          /\ (stage failed = "execute_sql" \/ stage failed = "render_html")).
Proof.
  rewrite run_stages. unfold three_stages, entered.
  destruct (schema_node_returns st0) as [[text ->] | (e0 & _ & ->)];
    (destruct (node_execute_sql (write st0 _)) as [u2 | e2];
     [ destruct (render_node (write (write st0 _) u2)) as [u3 | e3] | ]);
    cbn [fst snd map stage];
    (split; [auto | split; [intros stf H; solve [reflexivity | discriminate H]
                           | intros e H; try discriminate H;
                             injection H as <-]]).
  - eexists [_; _], _. cbn [app after stage]. auto.
  - eexists [_], _. cbn [app after stage]. auto.
  - eexists [_; _], _. cbn [app after stage]. auto.
  - eexists [_], _. cbn [app after stage]. auto.
Qed.

(** X12. When the planner fails, the rest of the run is the run of the
    executor and the renderer on the initial state: the planner's
    exception is nowhere in the result. If the question does not decode
    as JSON, the run raises the executor's [ValueError] about it. *)
Theorem planner_failure_leaves_the_question_to_the_executor
  (st0 : PipelineState) (e0 : exn) :
  schema_try st0 = Raise e0 ->
  snd (run_pipeline st0)
  = (u2 <- node_execute_sql st0 ;;
     u3 <- render_node (write st0 u2) ;;
     Return (write (write st0 u2) u3))
  /\ (forall exec_tool last e1,
        find_tool "execute_polars_sql" (tool st0) = Some exec_tool ->
        last_message (messages st0) = Return last ->
        py_json_loads (content last) = Raise e1 ->
        snd (run_pipeline st0)
        = Raise (Exn ValueError
                   ("Failed to parse AIMessage content as JSON: "
                    ++ exn_str e1))).
Proof.
  intros Htry.
  assert (Hrun : snd (run_pipeline st0)
                 = (u2 <- node_execute_sql st0 ;;
                    u3 <- render_node (write st0 u2) ;;
                    Return (write (write st0 u2) u3))).
  { rewrite run_stages. unfold three_stages, node_schema.
    rewrite Htry. cbn [try_except]. rewrite write_error_payload.
    destruct (node_execute_sql st0) as [u2 | e2]; [| reflexivity].
    cbn [bind].
    destruct (render_node (write st0 u2)) as [u3 | e3]; reflexivity. }
  split; [exact Hrun |].
  intros exec_tool last e1 Hfind Hlast Hload. rewrite Hrun.
  unfold node_execute_sql, decode_plan. rewrite Hfind, Hlast. cbn [bind].
  rewrite Hload. reflexivity.
Qed.


Lemma execute_metrics_same_location st st' exec_tool plans :
  csv_file_path st' = csv_file_path st ->
  forall results,
    execute_metrics st' exec_tool plans results
    = execute_metrics st exec_tool plans results.
Proof.
  intros Hpath. induction plans as [| m plans IH]; intros results.
  - reflexivity.
  - cbn [execute_metrics]. unfold execute_metric, query_arguments.
    rewrite Hpath.
    destruct (py_getitem m "sql") as [sql | e]; [| reflexivity].
    cbn [bind].
    destruct (ainvoke exec_tool _) as [data | e]; [| reflexivity].
    cbn [bind].
    destruct (py_getitem m "metric") as [metric | e]; [| reflexivity].
    cbn [bind].
    destruct (py_getitem m "description") as [description | e];
      [| reflexivity].
    cbn [bind].
    destruct (py_getitem m "visualization_type") as [vt | e];
      [| reflexivity].
    cbn [bind]. apply IH.
Qed.

(** X14. The planner and the executor compose: when the planner
    succeeds and its message decodes back to the two fields it was made
    of, the executor, entered on the state the planner's message was
    written to, runs the plans of the model's [key_metrics], on the
    dataset of the initial state. *)
Theorem executor_runs_the_plans_of_the_planner
  (st0 : PipelineState) (analysis text : string)
  (d : list (string * pyval)) (key_metrics dashboard_components : pyval)
  (exec_tool : BaseTool) :
  planner_receives INSTRUCTIONS_CSV_ANALYSIS_AND_SCHEMA st0 analysis ->
  analysis <> "" ->
  json_loads analysis = Return (PDict d) ->
  lookup "key_metrics" d = Some key_metrics ->
  lookup "dashboard_components" d = Some dashboard_components ->
  json_dumps false
    (PDict [("key_metrics", key_metrics);
            ("dashboard_components", dashboard_components)]) = Return text ->
  json_loads text
  = Return (PDict [("key_metrics", key_metrics);
                   ("dashboard_components", dashboard_components)]) ->
  written_last messages_reducer ->
  find_tool "execute_polars_sql" (tool st0) = Some exec_tool ->
  schema_node st0 = Return [("messages", UMessages [AIMessage (PStr text)])]
  /\ node_execute_sql
       (write st0 [("messages", UMessages [AIMessage (PStr text)])])
     = (plans <- py_iter key_metrics ;;
        results <- execute_metrics st0 exec_tool plans [] ;;
        Return [("messages", UMessages [AIMessage (PList results)])]).
Proof.
  intros Hrecv Hne Hload Hkm Hdc Hdump Hback Hlast Hfind.
  split.
  - unfold node_schema.
    rewrite (planner_receives_continues _ st0 analysis Hrecv).
    unfold spec_message.
    rewrite (parse_analysis_decoded analysis _ Hne Hload).
    cbn [bind require_keys py_in]. unfold has_key. rewrite Hkm, Hdc.
    cbn [bind]. unfold minimal_spec, py_get. rewrite Hkm, Hdc.
    cbn [bind]. rewrite Hdump. reflexivity.
  - rewrite write_messages.
    unfold node_execute_sql, decode_plan. cbn [tool messages].
    rewrite Hfind, (Hlast (messages st0) (AIMessage (PStr text))).
    cbn [bind content py_json_loads]. rewrite Hback.
    cbn [try_except bind]. unfold execute_plan.
    cbn [py_get lookup String.eqb Ascii.eqb Bool.eqb bind].
    destruct (py_iter key_metrics) as [plans | e]; [| reflexivity].
    cbn [bind].
    rewrite (execute_metrics_same_location st0
               {| messages := messages_reducer (messages st0)
                                [AIMessage (PStr text)];
                  csv_file_path := csv_file_path st0;
                  tool := tool st0 |} exec_tool plans eq_refl).
    reflexivity.
Qed.

End CoordinatorProperties.

(** The question is no JSON and the model is silent at the analysis
    call: the run ends with the executor's complaint about the question. *)
Lemma planner_failure_run_witness :
  exists why,
    snd (@ainvoke_pipeline Reference.codec (answering "" html_answer)
           analysis_prompt render_prompt overwrite init_state)
    = Raise (Exn ValueError
               ("Failed to parse AIMessage content as JSON: " ++ why)).
Proof.
  destruct (@planner_failure_leaves_the_question_to_the_executor
              Reference.codec (answering "" html_answer) analysis_prompt
              render_prompt overwrite init_state
              (Exn RuntimeError
                 "LLM returned empty content for schema analysis."))
    as [_ Hquestion].
  - vm_compute. reflexivity.
  - eexists.
    apply (Hquestion (rows_for price_query price_rows)
             (HumanMessage (PStr question))
             (Exn JSONDecodeError "Expecting value"));
      reflexivity.
Defined.


(** The executor after the planner, on the scripted collaborators. *)
Lemma planner_executor_witness :
  @node_execute_sql Reference.codec
    (apply_update overwrite init_state
       [("messages", UMessages [AIMessage (PStr handoff_text)])])
  = (plans <- py_iter (PList handoff_plans) ;;
     results <- execute_metrics init_state
                  (rows_for price_query price_rows) plans [] ;;
     Return [("messages", UMessages [AIMessage (PList results)])]).
Proof.
  apply (@executor_runs_the_plans_of_the_planner Reference.codec
           (answering plan_answer html_answer) analysis_prompt overwrite
           init_state plan_answer handoff_text
           (("domain", PStr "cricket") :: handoff_payload)
           (PList handoff_plans) (PList [PStr "charts"; PStr "tables"])
           (rows_for price_query price_rows)).
  - exact planner_receives_plan_answer.
  - discriminate.
  - vm_compute. reflexivity.
  - reflexivity.
  - reflexivity.
  - vm_compute. reflexivity.
  - vm_compute. reflexivity.
  - intros old m. reflexivity.
  - reflexivity.
Defined.

(** ** Properties of the host page and of the question agent *)

Lemma find_in_front {A : Type} (f : A -> bool) (l l' : list A) (x : A) :
  find f l = Some x -> find f (l ++ l') = Some x.
Proof.
  induction l as [| a l IH]; cbn [find app]; [discriminate |].
  destruct (f a); [intros H; exact H | exact IH].
Qed.

Lemma last_AIMessage_is_found (msgs : list message) (m : message) :
  last_message msgs = Return m ->
  is_AIMessage m = true ->
  find is_AIMessage (rev msgs) = Some m.
Proof.
  intros Hlast Hai. induction msgs as [| a msgs IH]; [discriminate Hlast |].
  destruct msgs as [| b msgs].
  - cbn [last_message] in Hlast. injection Hlast as ->.
    cbn [rev app find]. rewrite Hai. reflexivity.
  - change (last_message (a :: b :: msgs)) with (last_message (b :: msgs))
      in Hlast.
    change (rev (a :: b :: msgs)) with (rev (b :: msgs) ++ [a]).
    apply find_in_front. apply IH. exact Hlast.
Qed.

Lemma last_message_of_snoc (earlier : list message) (last : message) :
  last_message (earlier ++ [last]) = Return last.
Proof.
  induction earlier as [| a earlier IH]; [reflexivity |].
  destruct earlier as [| b earlier]; [reflexivity | exact IH].
Qed.

Lemma upload_path_of_name (file_name : string) :
  upload_path (Some file_name)
  = Some (CUSTOM_TEMP_DIR ++ "uploaded_" ++ file_name)%string.
Proof. reflexivity. Qed.

Section HostProperties.

Context `{Json : JsonCodec} `{LLM : LanguageModel}.
Variable INSTRUCTIONS_CSV_ANALYSIS_AND_SCHEMA : string.
Variable INSTRUCTIONS_RENDER_DASHBOARD_FROM_DATA : string.
Variable messages_reducer : list message -> list message -> list message.
Variable components_html : pyval -> result unit.

#[local] Abbreviation schema_node :=
  (node_schema INSTRUCTIONS_CSV_ANALYSIS_AND_SCHEMA).
#[local] Abbreviation schema_try :=
  (node_schema_try INSTRUCTIONS_CSV_ANALYSIS_AND_SCHEMA).
#[local] Abbreviation render_node :=
  (node_render_html INSTRUCTIONS_RENDER_DASHBOARD_FROM_DATA).
#[local] Abbreviation run_pipeline :=
  (ainvoke_pipeline INSTRUCTIONS_CSV_ANALYSIS_AND_SCHEMA
     INSTRUCTIONS_RENDER_DASHBOARD_FROM_DATA messages_reducer).
#[local] Abbreviation write := (apply_update messages_reducer).
#[local] Abbreviation run_stages :=
  (run_pipeline_stages INSTRUCTIONS_CSV_ANALYSIS_AND_SCHEMA
     INSTRUCTIONS_RENDER_DASHBOARD_FROM_DATA messages_reducer).
#[local] Abbreviation page :=
  (generate_dashboard INSTRUCTIONS_CSV_ANALYSIS_AND_SCHEMA
     INSTRUCTIONS_RENDER_DASHBOARD_FROM_DATA messages_reducer
     components_html).

Lemma page_with_path (path query : string) (tools : list BaseTool) :
  path <> "" ->
  page (Some path) query tools
  = match (final <- snd (run_pipeline (page_state path query tools)) ;;
           html <- html_of_result final ;;
           show_html components_html html) with
    | Return events => events
    | Raise e => [st_error ("Failed: " ++ exn_str e)]
    end.
Proof.
  intros Hpath. unfold generate_dashboard.
  destruct (String.eqb_spec path "") as [Heq | _]; [contradiction |].
  reflexivity.
Qed.

Lemma html_of_rendered (st : PipelineState) (html : string) :
  written_last messages_reducer ->
  html_of_result
    (write st [("messages", UMessages [AIMessage (PStr html)])])
  = Return (PStr html).
Proof.
  intros Hlast. unfold html_of_result.
  change (messages (write st [("messages", UMessages [AIMessage (PStr html)])]))
    with (messages_reducer (messages st) [AIMessage (PStr html)]).
  rewrite (Hlast (messages st) (AIMessage (PStr html))).
  cbn [bind content].
  destruct (truthy (PStr html)); [reflexivity |].
  rewrite (last_AIMessage_is_found _ (AIMessage (PStr html))
             (Hlast (messages st) (AIMessage (PStr html))) eq_refl).
  reflexivity.
Qed.

(** X15. When the pipeline returns and the model's answer to the
    rendering call was empty, the page shows no dashboard: it reports
    that no HTML was returned. *)
Theorem page_reports_empty_markup
  (path query : string) (tools : list BaseTool) (u1 u2 : state_update) :
  path <> "" ->
  written_last messages_reducer ->
  schema_node (page_state path query tools) = Return u1 ->
  node_execute_sql (write (page_state path query tools) u1) = Return u2 ->
  render_node (write (write (page_state path query tools) u1) u2)
  = Return [("messages", UMessages [AIMessage (PStr "")])] ->
  page (Some path) query tools
  = [st_error "No HTML returned from pipeline.";
     st_write "Result keys:" ["messages"; "csv_file_path"; "tool"]].
Proof.
  intros Hpath Hlast H1 H2 H3.
  rewrite (page_with_path path query tools Hpath), run_stages.
  unfold three_stages. rewrite H1, H2, H3. cbn [snd bind].
  rewrite (html_of_rendered _ "" Hlast). reflexivity.
Qed.

(** X16. Whatever the page is given, it hands to the HTML component
    nothing but the content of a message the renderer returned, and only
    when that content is not empty and the component took it. *)
Theorem page_shows_only_what_the_renderer_returned
  (csv_path : option string) (query : string) (tools : list BaseTool)
  (shown : pyval) :
  written_last messages_reducer ->
  In (st_components_html shown) (page csv_path query tools) ->
  exists st html,
    render_node st = Return [("messages", UMessages [AIMessage (PStr html)])]
    /\ shown = PStr html
    /\ html <> ""
    /\ components_html shown = Return tt.
Proof.
  intros Hlast Hin. unfold generate_dashboard in Hin.
  destruct csv_path as [path |];
    [| destruct Hin as [H | []]; discriminate H].
  destruct (String.eqb path "");
    [destruct Hin as [H | []]; discriminate H |].
  rewrite run_stages in Hin. unfold three_stages in Hin.
  set (st0 := {| messages := [HumanMessage (PStr query)];
                 csv_file_path := path; tool := tools |}) in *.
  destruct (schema_node st0) as [u1 | e1];
    [| destruct Hin as [H | []]; discriminate H].
  destruct (node_execute_sql (write st0 u1)) as [u2 | e2];
    [| destruct Hin as [H | []]; discriminate H].
  destruct (render_node (write (write st0 u1) u2)) as [u3 | e3] eqn:H3;
    [| destruct Hin as [H | []]; discriminate H].
  destruct (render_node_returns _ _ _ H3) as [html ->].
  cbn [snd bind] in Hin. rewrite (html_of_rendered _ html Hlast) in Hin.
  cbn [bind] in Hin. unfold show_html in Hin.
  destruct (truthy (PStr html)) eqn:Htruthy.
  - destruct (components_html (PStr html)) as [[] | e] eqn:Hshow;
      cbn [bind] in Hin.
    + destruct Hin as [H | [H | []]]; [| discriminate H].
      injection H as <-. exists (write (write st0 u1) u2), html.
      repeat split; try assumption.
      intros ->. discriminate Htruthy.
    + destruct Hin as [H | []]; discriminate H.
  - destruct Hin as [H | [H | []]]; discriminate H.
Qed.

(** X17. When the planner fails and the question is no JSON, the page
    shows the failure of the executor on the question; the planner's
    own error is not what the user sees. *)
Theorem page_shows_the_executor_failure_after_a_planner_failure
  (path query : string) (tools : list BaseTool) (exec_tool : BaseTool)
  (e0 e1 : exn) :
  path <> "" ->
  schema_try (page_state path query tools) = Raise e0 ->
  find_tool "execute_polars_sql" tools = Some exec_tool ->
  json_loads query = Raise e1 ->
  page (Some path) query tools
  = [st_error ("Failed: Failed to parse AIMessage content as JSON: "
               ++ exn_str e1)].
Proof.
  intros Hpath Htry Hfind Hload.
  rewrite (page_with_path path query tools Hpath), run_stages.
  unfold three_stages, node_schema. rewrite Htry. cbn [try_except].
  change (write (page_state path query tools) (error_payload e0))
    with (page_state path query tools).
  unfold node_execute_sql, decode_plan.
  cbn [page_state tool messages last_message bind content py_json_loads].
  rewrite Hfind, Hload. reflexivity.
Qed.

(** X18. The path of an upload is the temporary directory followed by
    [uploaded_] and the name of the file, and the page asks for an
    upload exactly when there is none. *)
Theorem page_asks_for_an_upload_only_without_one
  (csv_file : option string) (query : string) (tools : list BaseTool) :
  (forall file_name,
      csv_file = Some file_name ->
      upload_path csv_file
      = Some ("/mnt/c/workspaces/mcpserver/temp/uploaded_" ++ file_name)%string)
  /\ (page (upload_path csv_file) query tools
      = [st_error "Please upload a CSV first."]
      <-> csv_file = None).
Proof.
  split; [intros file_name ->; reflexivity |].
  split.
  - destruct csv_file as [file_name |]; [| reflexivity].
    intros H. exfalso. rewrite upload_path_of_name in H.
    unfold generate_dashboard in H.
    change (String.eqb (CUSTOM_TEMP_DIR ++ "uploaded_" ++ file_name)%string
              "")
      with false in H.
    cbv beta iota in H.
    destruct (snd (run_pipeline _)) as [final | e];
      cbn [bind] in H; [| discriminate H].
    destruct (html_of_result final) as [html | e];
      cbn [bind] in H; [| discriminate H].
    unfold show_html in H.
    destruct (truthy html); [| discriminate H].
    destruct (components_html html) as [[] | e]; cbn [bind] in H;
      discriminate H.
  - intros ->. reflexivity.
Qed.

(** X21. When the three stages return and the model's answer to the
    rendering call is not empty, the page hands exactly that answer to
    the HTML component and, the component having taken it, reports the
    dashboard as generated. *)
Theorem page_shows_the_document_of_the_model
  (path query html : string) (tools : list BaseTool)
  (u1 u2 : state_update) :
  path <> "" ->
  written_last messages_reducer ->
  schema_node (page_state path query tools) = Return u1 ->
  node_execute_sql (write (page_state path query tools) u1) = Return u2 ->
  render_node (write (write (page_state path query tools) u1) u2)
  = Return [("messages", UMessages [AIMessage (PStr html)])] ->
  html <> "" ->
  components_html (PStr html) = Return tt ->
  page (Some path) query tools
  = [st_components_html (PStr html); st_success "Dashboard generated!"].
Proof.
  intros Hpath Hlast H1 H2 H3 Hhtml Hshow.
  rewrite (page_with_path path query tools Hpath), run_stages.
  unfold three_stages. rewrite H1, H2, H3. cbn [snd bind].
  rewrite (html_of_rendered _ html Hlast). cbn [bind].
  unfold show_html. cbn [truthy].
  destruct (String.eqb_spec html "") as [Heq | _]; [contradiction |].
  cbn [negb]. rewrite Hshow. reflexivity.
Qed.

(** X22. An exception of the executor or of the renderer reaches the
    page as it is: the page shows [Failed:] followed by the text of that
    exception, and nothing else. *)
Theorem page_shows_the_failure_of_a_stage
  (path query : string) (tools : list BaseTool) (u1 : state_update)
  (e : exn) :
  path <> "" ->
  schema_node (page_state path query tools) = Return u1 ->
  (node_execute_sql (write (page_state path query tools) u1) = Raise e ->
   page (Some path) query tools = [st_error ("Failed: " ++ exn_str e)])
  /\ (forall u2,
        node_execute_sql (write (page_state path query tools) u1)
        = Return u2 ->
        render_node (write (write (page_state path query tools) u1) u2)
        = Raise e ->
        page (Some path) query tools = [st_error ("Failed: " ++ exn_str e)]).
Proof.
  intros Hpath H1.
  rewrite (page_with_path path query tools Hpath), run_stages.
  unfold three_stages. rewrite H1. split.
  - intros H2. rewrite H2. reflexivity.
  - intros u2 H2 H3. rewrite H2, H3. reflexivity.
Qed.

End HostProperties.

Section AgentProperties.

Context `{Agent : ReactAgent}.
Variable INSTRUCTIONS : string.

(** X19. When the agent raises, whatever it raises, [run_agent] raises
    [UnboundLocalError]: its [finally] clause reads [response], which
    was never bound, and that exception replaces the agent's. *)
Theorem run_agent_masks_the_failure_of_the_agent
  (message csv_path : string) (tools : list BaseTool) (e : exn) :
  agent_ainvoke tools INSTRUCTIONS message = Raise e ->
  run_agent INSTRUCTIONS message csv_path tools = Raise UnboundLocalError.
Proof.
  intros Hagent. unfold run_agent. rewrite Hagent. reflexivity.
Qed.

(** X20. When the agent returns, [run_agent] returns the content of the
    last message of the response, and raises [IndexError] when the
    response has no message; the path it was given plays no part. *)
Theorem run_agent_returns_the_last_content
  (message csv_path : string) (tools : list BaseTool)
  (response : agent_response) :
  agent_ainvoke tools INSTRUCTIONS message = Return response ->
  (forall earlier last,
      response = earlier ++ [last] ->
      run_agent INSTRUCTIONS message csv_path tools = Return (content last))
  /\ (response = [] ->
      run_agent INSTRUCTIONS message csv_path tools
      = Raise (Exn IndexError "list index out of range"))
  /\ (forall other_path,
        run_agent INSTRUCTIONS message other_path tools
        = run_agent INSTRUCTIONS message csv_path tools).
Proof.
  intros Hagent. unfold run_agent. rewrite Hagent.
  cbn [try_finally try_except bind].
  split; [| split].
  - intros earlier last ->.
    rewrite last_message_of_snoc. reflexivity.
  - intros ->. reflexivity.
  - intros other_path. reflexivity.
Qed.

End AgentProperties.

(** The page on the scripted collaborators, the model silent at the
    rendering call. *)
Lemma empty_markup_page_witness :
  @generate_dashboard Reference.codec silent_renderer analysis_prompt
    render_prompt overwrite displays
    (Some "/tmp/uploaded_players.csv") question tools
  = [st_error "No HTML returned from pipeline.";
     st_write "Result keys:" ["messages"; "csv_file_path"; "tool"]].
Proof.
  eapply (@page_reports_empty_markup Reference.codec silent_renderer
            analysis_prompt render_prompt overwrite displays
            "/tmp/uploaded_players.csv" question tools).
  - discriminate.
  - intros old m. reflexivity.
  - vm_compute. reflexivity.
  - vm_compute. reflexivity.
  - vm_compute. reflexivity.
Defined.

(** The page on the scripted collaborators: what it displays is the
    document the renderer returned. *)
Lemma shown_markup_witness :
  exists st html,
    @node_render_html Reference.codec (answering plan_answer html_answer)
      render_prompt st
    = Return [("messages", UMessages [AIMessage (PStr html)])]
    /\ PStr html_answer = PStr html
    /\ html <> ""
    /\ displays (PStr html_answer) = Return tt.
Proof.
  apply (@page_shows_only_what_the_renderer_returned Reference.codec
           (answering plan_answer html_answer) analysis_prompt
           render_prompt overwrite displays
           (Some "/tmp/uploaded_players.csv") question tools
           (PStr html_answer)).
  - intros old m. reflexivity.
  - vm_compute. left. reflexivity.
Defined.

(** The page when the model is silent at the analysis call. *)
Lemma planner_failure_page_witness :
  exists why,
    @generate_dashboard Reference.codec (answering "" html_answer)
      analysis_prompt render_prompt overwrite displays
      (Some "/tmp/uploaded_players.csv") question tools
    = [st_error ("Failed: Failed to parse AIMessage content as JSON: "
                 ++ why)].
Proof.
  eexists.
  eapply (@page_shows_the_executor_failure_after_a_planner_failure
            Reference.codec (answering "" html_answer) analysis_prompt
            render_prompt overwrite displays
            "/tmp/uploaded_players.csv" question tools
            (rows_for price_query price_rows)
            (Exn RuntimeError
               "LLM returned empty content for schema analysis.")
            (Exn JSONDecodeError "Expecting value")).
  - discriminate.
  - vm_compute. reflexivity.
  - reflexivity.
  - reflexivity.
Defined.

(** An agent that fails with a rate limit. *)
Lemma masked_failure_witness :
  @run_agent failing_agent agent_prompt question
    "/tmp/uploaded_players.csv" tools
  = Raise UnboundLocalError.
Proof.
  apply (@run_agent_masks_the_failure_of_the_agent failing_agent
           agent_prompt question "/tmp/uploaded_players.csv" tools
           rate_limited).
  reflexivity.
Defined.

(** An agent that answers. *)
Lemma agent_answer_witness :
  @run_agent answering_agent agent_prompt question
    "/tmp/uploaded_players.csv" tools
  = Return (PStr "The average age is 27.").
Proof.
  destruct (@run_agent_returns_the_last_content answering_agent
              agent_prompt question "/tmp/uploaded_players.csv" tools
              [HumanMessage (PStr question);
               AIMessage (PStr "The average age is 27.")] eq_refl)
    as (Hlast & _ & _).
  exact (Hlast [HumanMessage (PStr question)]
           (AIMessage (PStr "The average age is 27.")) eq_refl).
Defined.

(** The page on the scripted collaborators: the document is shown. *)
Lemma shown_document_witness :
  @generate_dashboard Reference.codec (answering plan_answer html_answer)
    analysis_prompt render_prompt overwrite displays
    (Some "/tmp/uploaded_players.csv") question tools
  = [st_components_html (PStr html_answer);
     st_success "Dashboard generated!"].
Proof.
  eapply (@page_shows_the_document_of_the_model Reference.codec
            (answering plan_answer html_answer) analysis_prompt
            render_prompt overwrite displays
            "/tmp/uploaded_players.csv" question html_answer tools).
  - discriminate.
  - intros old m. reflexivity.
  - vm_compute. reflexivity.
  - vm_compute. reflexivity.
  - vm_compute. reflexivity.
  - discriminate.
  - reflexivity.
Defined.

(** The page when the query tool knows the first query only, and the
    page when the model fails at the rendering call. *)
Lemma stage_failure_page_witness :
  @generate_dashboard Reference.codec (answering plan_answer html_answer)
    analysis_prompt render_prompt overwrite displays
    (Some "/tmp/uploaded_players.csv") question strict_tools
  = [st_error "Failed: column Age2 not found"]
  /\ @generate_dashboard Reference.codec failing_renderer analysis_prompt
       render_prompt overwrite displays
       (Some "/tmp/uploaded_players.csv") question tools
     = [st_error "Failed: rate limit reached"].
Proof.
  split.
  - edestruct (@page_shows_the_failure_of_a_stage Reference.codec
                 (answering plan_answer html_answer) analysis_prompt
                 render_prompt overwrite displays
                 "/tmp/uploaded_players.csv" question strict_tools
                 [("messages", UMessages [AIMessage (PStr handoff_text)])]
                 column_not_found) as [Hexec _].
    + discriminate.
    + vm_compute. reflexivity.
    + apply Hexec. vm_compute. reflexivity.
  - edestruct (@page_shows_the_failure_of_a_stage Reference.codec
                 failing_renderer analysis_prompt render_prompt overwrite
                 displays "/tmp/uploaded_players.csv" question tools
                 [("messages", UMessages [AIMessage (PStr handoff_text)])]
                 rate_limited) as [_ Hrender].
    + discriminate.
    + vm_compute. reflexivity.
    + eapply Hrender; vm_compute; reflexivity.
Defined.
